(** * A model of [app.py]: the venture-capital scraping endpoint

    The module [app.py] exposes one HTTP endpoint, [POST /process-url/].
    Its handler fetches a page, sends the page text to a language model,
    reads the model's JSON answer into a four-field record, inserts the
    record into a vector index unless a record of the same name is
    already there, and answers with a formatted summary and the names of
    similar records.

    The development below embeds the four functions of the module
    ([scrape_texts_and_links], [extract_vc_information],
    [format_information], [process_vc_url]) in a small state-and-exception
    monad over the vector index and a log of the calls made to the outside
    world, and proves the properties stated about them. *)

From Stdlib Require Import String Ascii List ZArith Bool Lia DecimalString.
Import ListNotations.
Open Scope string_scope.

#[local] Set Warnings "-register-all".

(** ** Python values

    The values that [json.loads] can produce and that the module handles.
    A [dict] keeps its insertion order, which [str] and iteration expose,
    so it is an association list.  Strings are byte strings; numbers are
    the integers (a fractional JSON number is outside this model). *)

Inductive value : Type :=
| PyNone
| PyBool (b : bool)
| PyInt (z : Z)
| PyStr (s : string)
| PyList (l : list value)
| PyDict (items : list (string * value)).

Definition dict := list (string * value).

(** [d[key]] on an association list: the first binding of [key]. *)
Fixpoint dict_get {A : Type} (key : string) (d : list (string * A)) : option A :=
  match d with
  | [] => None
  | (k, v) :: d' => if String.eqb k key then Some v else dict_get key d'
  end.

Definition dict_keys {A : Type} (d : list (string * A)) : list string :=
  map fst d.

(** Python's [==] on these values.  [bool] is a subtype of [int], so
    [True == 1]; lists compare element by element; dicts compare as
    key-to-value maps, whatever the order of insertion. *)
Fixpoint py_eq (a b : value) : bool :=
  match a, b with
  | PyNone, PyNone => true
  | PyBool x, PyBool y => Bool.eqb x y
  | PyBool x, PyInt y => Z.eqb (Z.b2z x) y
  | PyInt x, PyBool y => Z.eqb x (Z.b2z y)
  | PyInt x, PyInt y => Z.eqb x y
  | PyStr x, PyStr y => String.eqb x y
  | PyList xs, PyList ys =>
      (fix list_eq (xs ys : list value) {struct xs} : bool :=
         match xs, ys with
         | [], [] => true
         | x :: xs', y :: ys' => py_eq x y && list_eq xs' ys'
         | _, _ => false
         end) xs ys
  | PyDict xs, PyDict ys =>
      Nat.eqb (length xs) (length ys) &&
      (fix all_bound (xs : list (string * value)) {struct xs} : bool :=
         match xs with
         | [] => true
         | (k, v) :: xs' =>
             match dict_get k ys with
             | Some v' => py_eq v v'
             | None => false
             end && all_bound xs'
         end) xs
  | _, _ => false
  end.

(** [x in l] for a list [l]. *)
Definition py_in (x : value) (l : list value) : bool :=
  existsb (fun el => py_eq el x) l.

Definition isinstance_str (v : value) : bool :=
  match v with PyStr _ => true | _ => false end.

Definition is_sequence (v : value) : bool :=
  match v with PyList _ => true | _ => false end.

(** ** Text: [repr], [str], [str.join], [str.capitalize] *)

Definition LF : string := String "010"%char EmptyString.
Definition squote : ascii := "039"%char.
Definition dquote : ascii := "034"%char.
Definition backslash : ascii := "092"%char.

Fixpoint contains_char (c : ascii) (s : string) : bool :=
  match s with
  | EmptyString => false
  | String c' s' => Ascii.eqb c c' || contains_char c s'
  end.

Definition hex_digit (n : nat) : ascii :=
  if Nat.ltb n 10 then ascii_of_nat (48 + n) else ascii_of_nat (87 + n).

Definition char1 (c : ascii) : string := String c EmptyString.

(** One character of [repr(s)], for the quote character [q] chosen for
    the whole string.  Bytes from 128 up are taken to belong to printable
    characters and are kept. *)
Definition repr_char (q c : ascii) : string :=
  let n := nat_of_ascii c in
  if Ascii.eqb c q || Ascii.eqb c backslash then String backslash (char1 c)
  else if Nat.eqb n 9 then String backslash "t"
  else if Nat.eqb n 10 then String backslash "n"
  else if Nat.eqb n 13 then String backslash "r"
  else if Nat.ltb n 32 || Nat.eqb n 127 then
    String backslash (String "x" (String (hex_digit (n / 16)) (char1 (hex_digit (n mod 16)))))
  else char1 c.

Fixpoint repr_chars (q : ascii) (s : string) : string :=
  match s with
  | EmptyString => EmptyString
  | String c s' => repr_char q c ++ repr_chars q s'
  end.

(** [repr] of a [str]: single quotes, unless the string holds a single
    quote and no double quote. *)
Definition repr_str (s : string) : string :=
  let q := if contains_char squote s && negb (contains_char dquote s)
           then dquote else squote in
  String q (repr_chars q s ++ char1 q).

Definition string_of_Z (z : Z) : string :=
  NilZero.string_of_int (Z.to_int z).

Fixpoint py_repr (v : value) : string :=
  match v with
  | PyNone => "None"
  | PyBool true => "True"
  | PyBool false => "False"
  | PyInt z => string_of_Z z
  | PyStr s => repr_str s
  | PyList l => "[" ++ String.concat ", " (map py_repr l) ++ "]"
  | PyDict items =>
      "{" ++ String.concat ", "
               (map (fun kv => repr_str (fst kv) ++ ": " ++ py_repr (snd kv)) items)
          ++ "}"
  end.

(** [str(v)], which is what an f-string field [{v}] expands to. *)
Definition py_str (v : value) : string :=
  match v with
  | PyStr s => s
  | _ => py_repr v
  end.

Definition upper_char (c : ascii) : ascii :=
  let n := nat_of_ascii c in
  if Nat.leb 97 n && Nat.leb n 122 then ascii_of_nat (n - 32) else c.

Definition lower_char (c : ascii) : ascii :=
  let n := nat_of_ascii c in
  if Nat.leb 65 n && Nat.leb n 90 then ascii_of_nat (n + 32) else c.

Fixpoint lower (s : string) : string :=
  match s with
  | EmptyString => EmptyString
  | String c s' => String (lower_char c) (lower s')
  end.

(** [s.capitalize()]: first character upper case, the rest lower case
    (on the ASCII letters). *)
Definition capitalize (s : string) : string :=
  match s with
  | EmptyString => EmptyString
  | String c s' => String (upper_char c) (lower s')
  end.

(** ** The outside world

    The handler talks to three services: the target web site (through
    [requests]), the language model (through the [openai] client) and the
    vector index (through the [weaviate] client).  Every call is logged,
    in order, so that statements such as "the index is not touched" or
    "the model is called once" can be made. *)

Inductive Event : Type :=
| RequestsGet (url : string)
| ChatCompletionsCreate (user_content : string)
| CollectionsGet (name : string)
| QueryFetchObjects (return_properties : list string)
| DataInsert (properties : dict) (uuid : string)
| QueryNearText (query : string) (limit : nat) (distance : bool)
| PrintError.

Definition is_store_event (e : Event) : bool :=
  match e with
  | CollectionsGet _ | QueryFetchObjects _ | DataInsert _ _ | QueryNearText _ _ _ => true
  | _ => false
  end.

Definition is_insert (e : Event) : bool :=
  match e with DataInsert _ _ => true | _ => false end.

Definition is_llm_call (e : Event) : bool :=
  match e with ChatCompletionsCreate _ => true | _ => false end.

(** An object of the [VentureCapital] collection. *)
Record StoredObject : Type := mkObject {
  obj_uuid : string;
  obj_properties : dict
}.

Record World : Type := mkWorld {
  store : list StoredObject;
  trace : list Event
}.

Definition log (e : Event) (w : World) : World :=
  mkWorld (store w) (trace w ++ [e]).

(** The exceptions that can travel through the module. *)
Inductive Exn : Type :=
| RequestException
| HTTPError
| OpenAIError
| JSONDecodeError
| TypeError
| KeyError
| IndexError
| UnexpectedStatusCodeError
| HTTPException (status_code : Z) (detail : string).

(** [except requests.RequestException]: [HTTPError], which
    [raise_for_status] raises, is a subclass of it. *)
Definition is_RequestException (e : Exn) : bool :=
  match e with RequestException | HTTPError => true | _ => false end.

Inductive Result (A : Type) : Type :=
| Returned (a : A)
| Raised (e : Exn).
Arguments Returned {A} a.
Arguments Raised {A} e.

(** Computations: a result or an exception, and the world afterwards.
    What a computation did to the world before it raised stays done. *)
Definition M (A : Type) : Type := World -> Result A * World.

Definition ret {A : Type} (a : A) : M A := fun w => (Returned a, w).

Definition raise {A : Type} (e : Exn) : M A := fun w => (Raised e, w).

Definition bind {A B : Type} (m : M A) (k : A -> M B) : M B :=
  fun w =>
    match m w with
    | (Returned a, w') => k a w'
    | (Raised e, w') => (Raised e, w')
    end.

(** [try: m  except <handles>: h]. *)
Definition try_except {A : Type} (m : M A) (handles : Exn -> bool) (h : Exn -> M A) : M A :=
  fun w =>
    match m w with
    | (Returned a, w') => (Returned a, w')
    | (Raised e, w') => if handles e then h e w' else (Raised e, w')
    end.

Definition emit (e : Event) : M unit := fun w => (Returned tt, log e w).

Definition get_store : M (list StoredObject) := fun w => (Returned (store w), w).

Definition put_store (s : list StoredObject) : M unit :=
  fun w => (Returned tt, mkWorld s (trace w)).

(** A value that may be an exception: the outcome of an expression. *)
Definition lift {A : Type} (r : Exn + A) : M A :=
  match r with
  | inr a => ret a
  | inl e => raise e
  end.

Declare Scope py_scope.
Delimit Scope py_scope with py.
Notation "x <- m ;; k" := (bind m (fun x => k))
  (at level 61, m at next level, right associativity) : py_scope.
Notation "m ;;; k" := (bind m (fun _ => k))
  (at level 61, right associativity) : py_scope.
Open Scope py_scope.

Fixpoint mapM {A B : Type} (f : A -> M B) (l : list A) : M (list B) :=
  match l with
  | [] => ret []
  | x :: l' => y <- f x ;; ys <- mapM f l' ;; ret (y :: ys)
  end.

(** ** Subscription *)

(** [v[key]] for a string [key]. *)
Definition getitem_key (v : value) (key : string) : Exn + value :=
  match v with
  | PyDict items =>
      match dict_get key items with
      | Some x => inr x
      | None => inl KeyError
      end
  | _ => inl TypeError
  end.

(** [v[0]].  A [dict] read from JSON has string keys only. *)
Definition getitem_0 (v : value) : Exn + value :=
  match v with
  | PyList (x :: _) => inr x
  | PyList [] => inl IndexError
  | PyStr (String c _) => inr (PyStr (char1 c))
  | PyStr EmptyString => inl IndexError
  | PyDict _ => inl KeyError
  | _ => inl TypeError
  end.

(** [d[key]] for a dict [d]. *)
Definition dict_getitem (d : dict) (key : string) : Exn + value :=
  match dict_get key d with
  | Some x => inr x
  | None => inl KeyError
  end.

(** ** Libraries and services

    What the module imports and does not define.  The pure library
    functions are the same for every request and are taken to return on
    every input ([json.loads] apart, whose failure is [None]); the
    services answer as the outside world happens to answer during one
    request. *)

Record Anchor : Type := mkAnchor {
  href : string;        (* link['href'] *)
  link_text : string    (* link.get_text(strip=True) *)
}.

(** A parsed page, as far as the module looks at it. *)
Record Soup : Type := mkSoup {
  get_text : string;               (* soup.get_text(separator=' ', strip=True) *)
  find_all_a_href : list Anchor    (* soup.find_all('a', href=True) *)
}.

Record Response : Type := mkResponse {
  status_code : Z;
  content : string
}.

Record Library : Type := mkLibrary {
  json_loads : string -> option value;      (* None: json.JSONDecodeError *)
  urljoin : string -> string -> string;
  BeautifulSoup : string -> Soup;           (* BeautifulSoup(content, 'html.parser') *)
  uuid5_dns : string -> string              (* str(uuid.uuid5(uuid.NAMESPACE_DNS, name)) *)
}.

Record Services : Type := mkServices {
  (* requests.get(url, headers=headers); None: a RequestException *)
  requests_get : string -> option Response;
  (* client.chat.completions.create(...).json() for the user message;
     None: the call raised *)
  chat_completions_create : string -> option string;
  (* the order in which the index ranks its objects for a query text *)
  near_text_order : string -> list StoredObject -> list StoredObject
}.

Section App.

Context (L : Library) (E : Services).

(** [response.raise_for_status()]. *)
Definition raise_for_status (response : Response) : M unit :=
  if Z.leb 400 (status_code response) && Z.ltb (status_code response) 600
  then raise HTTPError
  else ret tt.

(** [requests.get(url, headers=headers)]. *)
Definition do_requests_get (url : string) : M Response :=
  emit (RequestsGet url) ;;;
  match requests_get E url with
  | Some response => ret response
  | None => raise RequestException
  end.

(** The page text and the link summary of [url], or [None] when the
    request raises a [RequestException]. *)
Definition scrape_texts_and_links (url : string) : M (option (string * string)) :=
  try_except
    (response <- do_requests_get url ;;
     raise_for_status response ;;;
     let soup := BeautifulSoup L (content response) in
     let texts := get_text soup in
     let links :=
       String.concat " "
         (map (fun link => urljoin L url (href link) ++ " (" ++ link_text link ++ ")")
              (find_all_a_href soup)) in
     ret (Some (texts, links)))
    is_RequestException
    (fun _ => ret None).

(** [client.chat.completions.create(...)] followed by [response.json()].
    The model name, the response format and the system message are the
    same in every call; the user message is [text]. *)
Definition do_chat_completions_create (text : string) : M string :=
  emit (ChatCompletionsCreate text) ;;;
  match chat_completions_create E text with
  | Some response_json => ret response_json
  | None => raise OpenAIError
  end.

(** [json.loads(s)] for a string [s]. *)
Definition loads (s : string) : M value :=
  match json_loads L s with
  | Some v => ret v
  | None => raise JSONDecodeError
  end.

(** [json.loads(v)] for a value [v] of any type. *)
Definition loads_value (v : value) : M value :=
  match v with
  | PyStr s => loads s
  | _ => raise TypeError
  end.

(** [[x] if isinstance(x, str) else x]. *)
Definition coerce (v : value) : value :=
  if isinstance_str v then PyList [v] else v.

(** The record read from the model's answer to [text].  The message
    content is decoded once per field, as in the source.  Whatever the
    body raises is caught ([except Exception]), reported on the standard
    output, and turned into [None]. *)
Definition extract_vc_information (text : string) : M (option dict) :=
  try_except
    (response <- do_chat_completions_create text ;;
     envelope <- loads response ;;
     choices <- lift (getitem_key envelope "choices") ;;
     choice <- lift (getitem_0 choices) ;;
     message <- lift (getitem_key choice "message") ;;
     response_json <- lift (getitem_key message "content") ;;
     parsed <- loads_value response_json ;;
     vc_name <- lift (getitem_key parsed "vc_name") ;;
     parsed <- loads_value response_json ;;
     contacts <- lift (getitem_key parsed "contacts") ;;
     parsed <- loads_value response_json ;;
     industries <- lift (getitem_key parsed "industries") ;;
     parsed <- loads_value response_json ;;
     investment_rounds <- lift (getitem_key parsed "investment_rounds") ;;
     let extracted_info :=
       [ ("vc_name", vc_name);
         ("contacts", coerce contacts);
         ("industries", coerce industries);
         ("investment_rounds", coerce investment_rounds) ] in
     ret (Some extracted_info))
    (fun _ => true)
    (fun _ => emit PrintError ;;; ret None).

Definition no_info : value := PyList [PyStr "no info"].

(** The summary: the loop over [extracted_info.items()] appends one line
    per field to [prompt]. *)
Definition format_information (extracted_info : dict) (url : string) : string :=
  fold_left
    (fun prompt kv =>
       let key := fst kv in
       let value := snd kv in
       if py_eq value no_info
       then prompt ++ "- There is not much information available about "
                   ++ capitalize key
                   ++ ". You can check it manually by visiting the website: "
                   ++ url ++ LF
       else prompt ++ "- " ++ capitalize key ++ ": " ++ py_str value ++ LF)
    extracted_info
    ("The information from the URL is the following: " ++ LF).

(** *** The vector index *)

Definition project (return_properties : list string) (o : StoredObject) : StoredObject :=
  mkObject (obj_uuid o)
    (filter (fun kv => existsb (String.eqb (fst kv)) return_properties) (obj_properties o)).

(** Modelled from the spec: [weaviate_client.collections.get] is part of
    the weaviate client; it hands out the collection and changes nothing. *)
Definition collections_get (name : string) : M unit :=
  emit (CollectionsGet name).

(** Modelled from the spec: [collection.query.fetch_objects] is part of
    the weaviate client; the index contract is a fetch of all existing
    records, restricted to the listed properties. *)
Definition query_fetch_objects (return_properties : list string) : M (list StoredObject) :=
  emit (QueryFetchObjects return_properties) ;;;
  objects <- get_store ;;
  ret (map (project return_properties) objects).

(** Modelled from the spec: [collection.data.insert] is part of the
    weaviate client; the index contract is an insert with an explicit
    identifier, and a second insert under an identifier in use collides. *)
Definition data_insert (properties : dict) (uuid : string) : M unit :=
  emit (DataInsert properties uuid) ;;;
  objects <- get_store ;;
  if existsb (fun o => String.eqb (obj_uuid o) uuid) objects
  then raise UnexpectedStatusCodeError
  else put_store (objects ++ [mkObject uuid properties]).

(** Modelled from the spec: [collection.query.near_text] is part of the
    weaviate client; the index contract is the [limit] nearest objects to
    the query text, in the order of the index. *)
Definition query_near_text (query : string) (limit : nat) (distance : bool)
  : M (list StoredObject) :=
  emit (QueryNearText query limit distance) ;;;
  objects <- get_store ;;
  ret (firstn limit (near_text_order E query objects)).

(** [generate_uuid5(identifier)] of [weaviate.util], with its default
    empty namespace: [str(uuid.uuid5(uuid.NAMESPACE_DNS, '' + str(identifier)))]. *)
Definition generate_uuid5 (identifier : dict) : string :=
  uuid5_dns L (EmptyString ++ py_str (PyDict identifier)).

(** [o.properties['vc_name'] for o in response.objects]. *)
Definition vc_names (objects : list StoredObject) : M (list value) :=
  mapM (fun o => lift (dict_getitem (obj_properties o) "vc_name")) objects.

(** [texts, links = r]. *)
Definition unpack2 (r : option (string * string)) : M (string * string) :=
  match r with
  | Some p => ret p
  | None => raise TypeError
  end.

(** The handler of [POST /process-url/].  [texts + links] is a string,
    so the test [text is None] that follows it has one outcome.  The test
    [not extracted_info] holds of [None] and of the empty dict.  What the
    handler returns is a set literal of one string, here the list of its
    elements. *)
Definition process_vc_url (data_url : string) : M (list string) :=
  r <- scrape_texts_and_links data_url ;;
  p <- unpack2 r ;;
  let texts := fst p in
  let links := snd p in
  let text := Some (texts ++ links) in
  match text with
  | None => raise (HTTPException 400 "Failed to scrape the website.")
  | Some text =>
      extracted_info <- extract_vc_information text ;;
      match extracted_info with
      | Some ((_ :: _) as extracted_info) =>
          collections_get "VentureCapital" ;;;
          response <- query_fetch_objects ["vc_name"] ;;
          name <- lift (dict_getitem extracted_info "vc_name") ;;
          names <- vc_names response ;;
          (if negb (py_in name names)
           then data_insert extracted_info (generate_uuid5 extracted_info)
           else ret tt) ;;;
          let user_friendly_text := format_information extracted_info data_url in
          response <- query_near_text (py_str (PyDict extracted_info)) 3 true ;;
          similar <- vc_names response ;;
          ret [ "Message: " ++ user_friendly_text ++ " " ++ LF
                ++ " Similar companies: " ++ py_repr (PyList similar) ]
      | _ => raise (HTTPException 500 "Failed to extract information.")
      end
  end.

End App.

(** ** Runs of the functions

    Each function of the module is characterised by what it returns and
    what it appends to the log.  The characterisations are pure functions
    of the libraries and services; they are proved equal to the monadic
    definitions further down. *)

Definition logs (evs : list Event) (w : World) : World :=
  mkWorld (store w) (trace w ++ evs).

(** The events a computation appends to the log. *)
Definition events_of {A : Type} (m : M A) (w : World) : list Event :=
  skipn (length (trace w)) (trace (snd (m w))).

Definition sum_bind {A B : Type} (r : Exn + A) (k : A -> Exn + B) : Exn + B :=
  match r with
  | inl e => inl e
  | inr a => k a
  end.

Definition result_of {A : Type} (r : Exn + A) : Result A :=
  match r with
  | inl e => Raised e
  | inr a => Returned a
  end.

Section Characterisation.

Context (L : Library) (E : Services).

(** What [scrape_texts_and_links] returns. *)
Definition fetched (url : string) : option (string * string) :=
  match requests_get E url with
  | None => None
  | Some response =>
      if Z.leb 400 (status_code response) && Z.ltb (status_code response) 600
      then None
      else
        let soup := BeautifulSoup L (content response) in
        Some (get_text soup,
              String.concat " "
                (map (fun link => urljoin L url (href link) ++ " (" ++ link_text link ++ ")")
                     (find_all_a_href soup)))
  end.

Definition decode (s : string) : Exn + value :=
  match json_loads L s with
  | Some v => inr v
  | None => inl JSONDecodeError
  end.

(** [json.loads(response.json())["choices"][0]["message"]["content"]]. *)
Definition message_content (response : string) : Exn + value :=
  sum_bind (decode response) (fun envelope =>
  sum_bind (getitem_key envelope "choices") (fun choices =>
  sum_bind (getitem_0 choices) (fun choice =>
  sum_bind (getitem_key choice "message") (fun message =>
  getitem_key message "content")))).

(** The model answers [text] with a message whose content decodes to
    [parsed]. *)
Definition model_answers (text : string) (parsed : value) : Prop :=
  exists response s,
    chat_completions_create E text = Some response /\
    message_content response = inr (PyStr s) /\
    json_loads L s = Some parsed.

Definition record_of (vc_name contacts industries investment_rounds : value) : dict :=
  [ ("vc_name", vc_name);
    ("contacts", coerce contacts);
    ("industries", coerce industries);
    ("investment_rounds", coerce investment_rounds) ].

(** The record built from a decoded answer. *)
Definition answer_record (parsed : value) : Exn + dict :=
  sum_bind (getitem_key parsed "vc_name") (fun vc_name =>
  sum_bind (getitem_key parsed "contacts") (fun contacts =>
  sum_bind (getitem_key parsed "industries") (fun industries =>
  sum_bind (getitem_key parsed "investment_rounds") (fun investment_rounds =>
  inr (record_of vc_name contacts industries investment_rounds))))).

(** What the body of [extract_vc_information] evaluates to. *)
Definition extracted (text : string) : Exn + dict :=
  match chat_completions_create E text with
  | None => inl OpenAIError
  | Some response =>
      sum_bind (message_content response) (fun response_json =>
        match response_json with
        | PyStr s => sum_bind (decode s) answer_record
        | _ => inl TypeError
        end)
  end.

(** The [vc_name] of every object, or the exception of the first object
    that has none. *)
Fixpoint names_of (objects : list StoredObject) : Exn + list value :=
  match objects with
  | [] => inr []
  | o :: objects' =>
      sum_bind (dict_getitem (obj_properties o) "vc_name") (fun n =>
      sum_bind (names_of objects') (fun ns => inr (n :: ns)))
  end.

(** The answer of the handler once the index has been brought up to date. *)
Definition respond (info : dict) (url : string) (w : World) : Result (list string) * World :=
  let query := py_str (PyDict info) in
  (result_of
     (sum_bind (names_of (firstn 3 (near_text_order E query (store w)))) (fun similar =>
        inr [ "Message: " ++ format_information info url ++ " " ++ LF
              ++ " Similar companies: " ++ py_repr (PyList similar) ])),
   logs [QueryNearText query 3 true] w).

(** The handler from the existence check on, for an extracted record
    [info] of name [name]. *)
Definition store_phase (info : dict) (name : value) (url : string) (w : World)
  : Result (list string) * World :=
  let w1 := logs [CollectionsGet "VentureCapital"; QueryFetchObjects ["vc_name"]] w in
  match names_of (store w) with
  | inl e => (Raised e, w1)
  | inr names =>
      if py_in name names then respond info url w1
      else
        let uuid := generate_uuid5 L info in
        if existsb (fun o => String.eqb (obj_uuid o) uuid) (store w)
        then (Raised UnexpectedStatusCodeError, logs [DataInsert info uuid] w1)
        else respond info url
               (mkWorld (store w ++ [mkObject uuid info])
                        (trace w1 ++ [DataInsert info uuid]))
  end.

Definition after_fetch (url text : string) (w : World) : Result (list string) * World :=
  match extracted text with
  | inl _ =>
      (Raised (HTTPException 500 "Failed to extract information."),
       logs [ChatCompletionsCreate text; PrintError] w)
  | inr info =>
      match dict_get "vc_name" info with
      | Some name => store_phase info name url (logs [ChatCompletionsCreate text] w)
      | None => (Raised KeyError, w)
      end
  end.

End Characterisation.

(** ** The paths of the handler *)

(** What the handler returns once the index holds [objects]: the message,
    with the names of the objects the index ranks nearest to the record. *)
Definition answer (E : Services) (info : dict) (url : string) (objects : list StoredObject)
  : Result (list string) :=
  result_of
    (sum_bind (names_of (firstn 3 (near_text_order E (py_str (PyDict info)) objects)))
       (fun similar =>
          inr [ "Message: " ++ format_information info url ++ " " ++ LF
                ++ " Similar companies: " ++ py_repr (PyList similar) ])).

(** [Run L E url s r s' evs]: from an index holding [s], the handler
    called on [url] ends with [r], leaves the index holding [s'] and logs
    the events [evs].  One constructor per path through the handler. *)
Inductive Run (L : Library) (E : Services) (url : string) (s : list StoredObject)
  : Result (list string) -> list StoredObject -> list Event -> Prop :=
| run_fetch_failed :
    fetched L E url = None ->
    Run L E url s (Raised TypeError) s [RequestsGet url]
| run_extraction_failed texts links e :
    fetched L E url = Some (texts, links) ->
    extracted L E (texts ++ links) = inl e ->
    Run L E url s (Raised (HTTPException 500 "Failed to extract information.")) s
      [RequestsGet url; ChatCompletionsCreate (texts ++ links); PrintError]
| run_unnamed_object texts links info e :
    fetched L E url = Some (texts, links) ->
    extracted L E (texts ++ links) = inr info ->
    names_of s = inl e ->
    Run L E url s (Raised e) s
      [RequestsGet url; ChatCompletionsCreate (texts ++ links);
       CollectionsGet "VentureCapital"; QueryFetchObjects ["vc_name"]]
| run_known texts links info name names :
    fetched L E url = Some (texts, links) ->
    extracted L E (texts ++ links) = inr info ->
    dict_get "vc_name" info = Some name ->
    names_of s = inr names ->
    py_in name names = true ->
    Run L E url s (answer E info url s) s
      [RequestsGet url; ChatCompletionsCreate (texts ++ links);
       CollectionsGet "VentureCapital"; QueryFetchObjects ["vc_name"];
       QueryNearText (py_str (PyDict info)) 3 true]
| run_collision texts links info name names :
    fetched L E url = Some (texts, links) ->
    extracted L E (texts ++ links) = inr info ->
    dict_get "vc_name" info = Some name ->
    names_of s = inr names ->
    py_in name names = false ->
    existsb (fun o => String.eqb (obj_uuid o) (generate_uuid5 L info)) s = true ->
    Run L E url s (Raised UnexpectedStatusCodeError) s
      [RequestsGet url; ChatCompletionsCreate (texts ++ links);
       CollectionsGet "VentureCapital"; QueryFetchObjects ["vc_name"];
       DataInsert info (generate_uuid5 L info)]
| run_inserted texts links info name names :
    fetched L E url = Some (texts, links) ->
    extracted L E (texts ++ links) = inr info ->
    dict_get "vc_name" info = Some name ->
    names_of s = inr names ->
    py_in name names = false ->
    existsb (fun o => String.eqb (obj_uuid o) (generate_uuid5 L info)) s = false ->
    Run L E url s
      (answer E info url (s ++ [mkObject (generate_uuid5 L info) info]))
      (s ++ [mkObject (generate_uuid5 L info) info])
      [RequestsGet url; ChatCompletionsCreate (texts ++ links);
       CollectionsGet "VentureCapital"; QueryFetchObjects ["vc_name"];
       DataInsert info (generate_uuid5 L info);
       QueryNearText (py_str (PyDict info)) 3 true].

(** ** Vocabulary of the properties *)

(** The request for [url] reaches the model and the model's answer is
    read into the record [info]. *)
Definition extracts (L : Library) (E : Services) (url : string) (info : dict) : Prop :=
  exists texts links,
    (forall w, fst (scrape_texts_and_links L E url w) = Returned (Some (texts, links))) /\
    (forall w, fst (extract_vc_information L E (texts ++ links) w) = Returned (Some info)).

(** Some object of the index carries a [vc_name] equal to [name]. *)
Definition stored_name (name : value) (objects : list StoredObject) : Prop :=
  exists o n,
    In o objects /\ dict_get "vc_name" (obj_properties o) = Some n /\ py_eq n name = true.

(** The status of the HTTP response for an outcome of the handler: an
    [HTTPException] carries its own, any other exception is answered with
    500 by the framework. *)
Definition response_status {A : Type} (r : Result A) : Z :=
  match r with
  | Returned _ => 200
  | Raised (HTTPException status_code _) => status_code
  | Raised _ => 500
  end.

(** [v] is what the extractor stores for a field the model gave as [raw]:
    a string is wrapped into a list of one element, anything else is
    kept, and in no case is the stored value a bare string. *)
Definition coerced (raw v : value) : Prop :=
  isinstance_str v = false /\
  (isinstance_str raw = true -> v = PyList [raw]) /\
  (isinstance_str raw = false -> v = raw).

Definition intro_line : string :=
  "The information from the URL is the following: " ++ LF.

(** The line for a field whose value is the sentinel. *)
Definition check_manually (field url : string) : string :=
  "- There is not much information available about " ++ field
  ++ ". You can check it manually by visiting the website: " ++ url ++ LF.

(** The line for a field of any other value. *)
Definition field_value (field : string) (v : value) : string :=
  "- " ++ field ++ ": " ++ py_str v ++ LF.

(** [line] is the line of the summary for the field named [field] (the
    key, capitalized) of value [v]. *)
Definition field_line (field : string) (v : value) (url line : string) : Prop :=
  (v = PyList [PyStr "no info"] -> line = check_manually field url) /\
  (v <> PyList [PyStr "no info"] -> line = field_value field v).

(** The line the formatter appends for the binding of [key] to [v]. *)
Definition summary_line (url key : string) (v : value) : string :=
  if py_eq v no_info
  then check_manually (capitalize key) url
  else field_value (capitalize key) v.

(** The ways the extraction fails: the call to the model raises; the
    response is not a JSON document, or holds no message content; the
    content is not a string, or not a JSON document; or the document
    lacks one of the four keys (or is no dict at all). *)
Inductive ExtractionFails (L : Library) (E : Services) (text : string) : Prop :=
| llm_call_raises :
    chat_completions_create E text = None ->
    ExtractionFails L E text
| malformed_response response :
    chat_completions_create E text = Some response ->
    json_loads L response = None ->
    ExtractionFails L E text
| no_message_content response e :
    chat_completions_create E text = Some response ->
    message_content L response = inl e ->
    ExtractionFails L E text
| content_not_a_string response v :
    chat_completions_create E text = Some response ->
    message_content L response = inr v ->
    isinstance_str v = false ->
    ExtractionFails L E text
| malformed_content response s :
    chat_completions_create E text = Some response ->
    message_content L response = inr (PyStr s) ->
    json_loads L s = None ->
    ExtractionFails L E text
| missing_key parsed key e :
    model_answers L E text parsed ->
    In key ["vc_name"; "contacts"; "industries"; "investment_rounds"] ->
    getitem_key parsed key = inl e ->
    ExtractionFails L E text.

Definition is_near_text (e : Event) : bool :=
  match e with QueryNearText _ _ _ => true | _ => false end.

(** ** Well-formed values *)

Fixpoint distinct (keys : list string) : bool :=
  match keys with
  | [] => true
  | k :: keys' => negb (existsb (String.eqb k) keys') && distinct keys'
  end.

(** The values Python can hold: no dict binds a key twice. *)
Fixpoint well_formed (v : value) : bool :=
  match v with
  | PyList l => forallb well_formed l
  | PyDict items =>
      distinct (map fst items) && forallb (fun kv => well_formed (snd kv)) items
  | _ => true
  end.

Section ValueInduction.

Variable P : value -> Prop.
Hypothesis HNone : P PyNone.
Hypothesis HBool : forall b, P (PyBool b).
Hypothesis HInt : forall z, P (PyInt z).
Hypothesis HStr : forall s, P (PyStr s).
Hypothesis HList : forall l, Forall P l -> P (PyList l).
Hypothesis HDict : forall items, Forall (fun kv => P (snd kv)) items -> P (PyDict items).

Fixpoint value_induction (v : value) : P v :=
  match v with
  | PyNone => HNone
  | PyBool b => HBool b
  | PyInt z => HInt z
  | PyStr s => HStr s
  | PyList l =>
      HList l
        ((fix elements (l : list value) : Forall P l :=
            match l with
            | [] => Forall_nil P
            | x :: l' => Forall_cons x (value_induction x) (elements l')
            end) l)
  | PyDict items =>
      HDict items
        ((fix bindings (items : list (string * value))
            : Forall (fun kv => P (snd kv)) items :=
            match items with
            | [] => Forall_nil _
            | kv :: items' =>
                Forall_cons kv (value_induction (snd kv)) (bindings items')
            end) items)
  end.

End ValueInduction.

(** ** Vocabulary of the further properties *)

(** The object carries a [vc_name]. *)
Definition named (o : StoredObject) : Prop :=
  dict_get "vc_name" (obj_properties o) <> None.

(** The model reports a field as not found, as a string or as a list. *)
Definition says_no_info (v : value) : Prop :=
  v = PyStr "no info" \/ v = PyList [PyStr "no info"].



(** ** Sample documents

    A serializer for the values, and a decoder that knows the texts of a
    finite table of documents.  They give concrete libraries and services
    on which the functions above can be run. *)

Definition json_string (s : string) : string :=
  String dquote (repr_chars dquote s ++ char1 dquote).

Fixpoint json_dumps (v : value) : string :=
  match v with
  | PyNone => "null"
  | PyBool true => "true"
  | PyBool false => "false"
  | PyInt z => string_of_Z z
  | PyStr s => json_string s
  | PyList l => "[" ++ String.concat ", " (map json_dumps l) ++ "]"
  | PyDict items =>
      "{" ++ String.concat ", "
               (map (fun kv => json_string (fst kv) ++ ": " ++ json_dumps (snd kv)) items)
          ++ "}"
  end.

Definition table_loads (table : list value) (s : string) : option value :=
  find (fun v => String.eqb (json_dumps v) s) table.

(** The envelope of a chat completion whose message content is [content]. *)
Definition completion (content : value) : value :=
  PyDict [ ("id", PyStr "chatcmpl-1");
           ("choices",
             PyList [ PyDict [ ("finish_reason", PyStr "stop");
                               ("index", PyInt 0);
                               ("message",
                                 PyDict [ ("content", content);
                                          ("role", PyStr "assistant") ]) ] ]);
           ("model", PyStr "gpt-3.5-turbo-0125") ].

Module Sample.

Definition url : string := "https://example-vc.com".

Definition page : string := "<html>Acme Ventures</html>".

Definition soup : Soup :=
  mkSoup "Acme Ventures invests in fintech and healthtech. Contact: hello@acme.vc"
         [ mkAnchor "/contact" "Contact Us" ].

Definition plain_soup : Soup := mkSoup "Acme Ventures invests in fintech." [].

(** What the model answers: every field a scalar string. *)
Definition answer : value :=
  PyDict [ ("vc_name", PyStr "Acme Ventures");
           ("contacts", PyStr "hello@acme.vc");
           ("industries", PyList [PyStr "fintech"; PyStr "healthtech"]);
           ("investment_rounds", PyStr "no info") ].

(** An answer in which nothing was found, not even the name. *)
Definition blank_answer : value :=
  PyDict [ ("vc_name", PyStr "no info");
           ("contacts", PyStr "no info");
           ("industries", PyStr "no info");
           ("investment_rounds", PyStr "no info") ].

(** An answer with a key missing. *)
Definition short_answer : value :=
  PyDict [ ("vc_name", PyStr "Acme Ventures");
           ("contacts", PyStr "hello@acme.vc") ].

Definition documents : list value :=
  [ answer; blank_answer; short_answer;
    completion (PyStr (json_dumps answer));
    completion (PyStr (json_dumps blank_answer));
    completion (PyStr (json_dumps short_answer)) ].

Definition library (s : Soup) : Library :=
  mkLibrary (table_loads documents)
            (fun base h => base ++ h)
            (fun _ => s)
            (fun name => "uuid5:" ++ name).

(** The site answers with [status]; the model answers with [a]. *)
Definition services (status : Z) (a : value) : Services :=
  mkServices (fun _ => Some (mkResponse status page))
             (fun _ => Some (json_dumps (completion (PyStr (json_dumps a)))))
             (fun _ objects => objects).

(** The site cannot be reached. *)
Definition offline : Services :=
  mkServices (fun _ => None) (fun _ => None) (fun _ objects => objects).

Definition empty : World := mkWorld [] [].

Definition record : dict :=
  [ ("vc_name", PyStr "Acme Ventures");
    ("contacts", PyList [PyStr "hello@acme.vc"]);
    ("industries", PyList [PyStr "fintech"; PyStr "healthtech"]);
    ("investment_rounds", PyList [PyStr "no info"]) ].

(** A world whose index holds a record of the same name and other fields. *)
Definition stocked : World :=
  mkWorld [ mkObject "uuid5:old"
              [ ("vc_name", PyStr "Acme Ventures");
                ("contacts", PyList [PyStr "office@acme.vc"]);
                ("industries", PyList [PyStr "biotech"]);
                ("investment_rounds", PyList [PyStr "Seed"]) ] ]
          [].

End Sample.

(** * Proofs *)

(** ** Evaluation on small inputs *)

Example capitalize_vc_name : capitalize "vc_name" = "Vc_name".
Proof. reflexivity. Qed.

Example py_repr_list :
  py_repr (PyList [PyStr "no info"; PyInt (-3); PyNone]) = "['no info', -3, None]".
Proof. reflexivity. Qed.

Example py_repr_quote : py_repr (PyStr "it's") = String dquote ("it's" ++ char1 dquote).
Proof. reflexivity. Qed.

Example py_eq_bool_int : py_eq (PyBool true) (PyInt 1) = true.
Proof. reflexivity. Qed.

Example py_eq_dict_order :
  py_eq (PyDict [("a", PyInt 1); ("b", PyNone)]) (PyDict [("b", PyNone); ("a", PyInt 1)]) = true.
Proof. reflexivity. Qed.

(** A firm the index does not know: the record is inserted and the
    answer names it among the similar firms. *)
Example process_new_firm :
  process_vc_url (Sample.library Sample.soup) (Sample.services 200 Sample.answer)
    Sample.url Sample.empty
  = (Returned
       [ "Message: The information from the URL is the following: " ++ LF
         ++ "- Vc_name: Acme Ventures" ++ LF
         ++ "- Contacts: ['hello@acme.vc']" ++ LF
         ++ "- Industries: ['fintech', 'healthtech']" ++ LF
         ++ "- There is not much information available about Investment_rounds."
         ++ " You can check it manually by visiting the website: https://example-vc.com"
         ++ LF ++ " " ++ LF ++ " Similar companies: ['Acme Ventures']" ],
     mkWorld
       [ mkObject (generate_uuid5 (Sample.library Sample.soup) Sample.record)
           Sample.record ]
       [ RequestsGet Sample.url;
         ChatCompletionsCreate
           ("Acme Ventures invests in fintech and healthtech. Contact: hello@acme.vc"
            ++ "https://example-vc.com/contact (Contact Us)");
         CollectionsGet "VentureCapital";
         QueryFetchObjects ["vc_name"];
         DataInsert Sample.record
           (generate_uuid5 (Sample.library Sample.soup) Sample.record);
         QueryNearText
           ("{'vc_name': 'Acme Ventures', 'contacts': ['hello@acme.vc'], "
            ++ "'industries': ['fintech', 'healthtech'], 'investment_rounds': ['no info']}")
           3 true ]).
Proof. reflexivity. Qed.

(** The site answers 404: the handler ends with a [TypeError]. *)
Example process_missing_page :
  process_vc_url (Sample.library Sample.soup) (Sample.services 404 Sample.answer)
    Sample.url Sample.stocked
  = (Raised TypeError, mkWorld (store Sample.stocked) [RequestsGet Sample.url]).
Proof. reflexivity. Qed.

(** The site cannot be reached: the same. *)
Example process_unreachable_site :
  process_vc_url (Sample.library Sample.soup) Sample.offline Sample.url Sample.stocked
  = (Raised TypeError, mkWorld (store Sample.stocked) [RequestsGet Sample.url]).
Proof. reflexivity. Qed.

(** ** Runs of the functions *)

Lemma log_logs e w : log e w = logs [e] w.
Proof. reflexivity. Qed.

Lemma logs_logs evs1 evs2 w : logs evs2 (logs evs1 w) = logs (evs1 ++ evs2) w.
Proof. unfold logs; simpl. now rewrite app_assoc. Qed.

Lemma store_logs evs w : store (logs evs w) = store w.
Proof. reflexivity. Qed.

Lemma skipn_length_app {A : Type} (l1 l2 : list A) : skipn (length l1) (l1 ++ l2) = l2.
Proof. induction l1; simpl; auto. Qed.

Lemma events_of_eq {A : Type} (m : M A) w r s evs :
  m w = (r, mkWorld s (trace w ++ evs)) -> events_of m w = evs.
Proof. intros H. unfold events_of. rewrite H. simpl. apply skipn_length_app. Qed.

Lemma scrape_run L E url w :
  scrape_texts_and_links L E url w = (Returned (fetched L E url), logs [RequestsGet url] w).
Proof.
  unfold scrape_texts_and_links, try_except, do_requests_get, raise_for_status,
    fetched, bind, emit, raise, ret.
  destruct (requests_get E url) as [response|]; simpl; [|reflexivity].
  destruct (Z.leb 400 (status_code response) && Z.ltb (status_code response) 600);
    reflexivity.
Qed.

Lemma extract_run L E text w :
  extract_vc_information L E text w =
  match extracted L E text with
  | inr info => (Returned (Some info), logs [ChatCompletionsCreate text] w)
  | inl _ => (Returned None, logs [ChatCompletionsCreate text; PrintError] w)
  end.
Proof.
  unfold extract_vc_information, extracted, message_content, answer_record, decode,
    try_except, do_chat_completions_create, loads_value, loads, bind, emit, raise, ret.
  destruct (chat_completions_create E text) as [response|]; simpl;
    [|now rewrite !log_logs, logs_logs].
  destruct (json_loads L response) as [envelope|]; simpl;
    [|now rewrite !log_logs, logs_logs].
  repeat match goal with
  | |- context [lift ?r] =>
      destruct r as [?e|?v] eqn:?; simpl; [now rewrite !log_logs, logs_logs|]
  | |- context [match ?v with PyStr _ => _ | _ => _ end] =>
      destruct v; simpl; try now rewrite !log_logs, logs_logs
  | |- context [json_loads L ?s] =>
      destruct (json_loads L s) eqn:?; simpl; [|now rewrite !log_logs, logs_logs]
  end.
  reflexivity.
Qed.

Lemma extracted_shape L E text info :
  extracted L E text = inr info ->
  exists parsed vc_name contacts industries investment_rounds,
    model_answers L E text parsed /\
    getitem_key parsed "vc_name" = inr vc_name /\
    getitem_key parsed "contacts" = inr contacts /\
    getitem_key parsed "industries" = inr industries /\
    getitem_key parsed "investment_rounds" = inr investment_rounds /\
    info = record_of vc_name contacts industries investment_rounds.
Proof.
  unfold extracted, model_answers.
  destruct (chat_completions_create E text) as [response|]; [|discriminate].
  destruct (message_content L response) as [e|response_json] eqn:Hc; simpl; [discriminate|].
  destruct response_json; try discriminate.
  unfold decode. destruct (json_loads L s) as [parsed|] eqn:Hs; simpl; [|discriminate].
  unfold answer_record.
  destruct (getitem_key parsed "vc_name") as [|vc_name] eqn:H1; simpl; [discriminate|].
  destruct (getitem_key parsed "contacts") as [|contacts] eqn:H2; simpl; [discriminate|].
  destruct (getitem_key parsed "industries") as [|industries] eqn:H3; simpl; [discriminate|].
  destruct (getitem_key parsed "investment_rounds") as [|rounds] eqn:H4; simpl; [discriminate|].
  intros H; injection H as <-.
  exists parsed, vc_name, contacts, industries, rounds.
  repeat split; auto. exists response, s. auto.
Qed.

Lemma extracted_answer L E text parsed :
  model_answers L E text parsed -> extracted L E text = answer_record parsed.
Proof.
  intros (response & s & Hr & Hc & Hs).
  unfold extracted, decode. now rewrite Hr, Hc; simpl; rewrite Hs.
Qed.

Lemma vc_names_run objects w :
  vc_names objects w = (result_of (names_of objects), w).
Proof.
  unfold vc_names. revert w. induction objects as [|o objects IH]; intros w;
    cbn [mapM names_of]; [reflexivity|].
  unfold bind at 1. unfold lift at 1.
  destruct (dict_getitem (obj_properties o) "vc_name"); cbn [sum_bind]; [reflexivity|].
  unfold ret at 1, bind at 1. rewrite IH.
  destruct (names_of objects); reflexivity.
Qed.

Lemma dict_get_filter (keep : string -> bool) key (d : dict) :
  keep key = true ->
  dict_get key (filter (fun kv => keep (fst kv)) d) = dict_get key d.
Proof.
  intros Hk. induction d as [|[k v] d IH]; simpl; [reflexivity|].
  destruct (String.eqb k key) eqn:Hkk.
  - apply String.eqb_eq in Hkk. subst k. rewrite Hk. simpl.
    now rewrite String.eqb_refl.
  - destruct (keep k); simpl; [rewrite Hkk|]; exact IH.
Qed.

Lemma names_of_project objects :
  names_of (map (project ["vc_name"]) objects) = names_of objects.
Proof.
  induction objects as [|o objects IH]; simpl; [reflexivity|].
  rewrite IH. unfold dict_getitem.
  now rewrite (dict_get_filter (fun k => existsb (String.eqb k) ["vc_name"])).
Qed.

Lemma record_of_name n c i r :
  exists kv rest, record_of n c i r = kv :: rest /\
                  dict_get "vc_name" (kv :: rest) = Some n.
Proof. eexists _, _. split; reflexivity. Qed.

(** The run of the handler, stage by stage. *)
Lemma process_vc_url_run L E url w :
  process_vc_url L E url w =
  match fetched L E url with
  | None => (Raised TypeError, logs [RequestsGet url] w)
  | Some (texts, links) => after_fetch L E url (texts ++ links) (logs [RequestsGet url] w)
  end.
Proof.
  unfold process_vc_url, bind at 1. rewrite scrape_run.
  destruct (fetched L E url) as [[texts links]|]; [|reflexivity].
  cbv beta iota delta [unpack2 bind ret fst snd]. rewrite extract_run. unfold after_fetch.
  destruct (extracted L E (texts ++ links)) as [e|info] eqn:Hx; [reflexivity|].
  destruct (extracted_shape _ _ _ _ Hx) as (parsed & n & c & i & r & _ & _ & _ & _ & _ & ->).
  destruct (record_of_name n c i r) as (kv & rest & -> & Hn).
  set (info := kv :: rest) in *. rewrite Hn.
  cbv beta iota delta [store_phase respond collections_get query_fetch_objects
    query_near_text data_insert bind emit get_store put_store lift dict_getitem raise ret].
  rewrite Hn. rewrite !vc_names_run, !log_logs, !logs_logs. cbn [app store logs].
  rewrite names_of_project.
  destruct (names_of (store w)) as [e|names]; cbn [result_of]; [reflexivity|].
  destruct (py_in n names); cbn [negb].
  - rewrite !vc_names_run, !log_logs, !logs_logs. cbn [app store logs].
    destruct (names_of _); reflexivity.
  - rewrite !log_logs, !logs_logs, !store_logs.
    destruct (existsb _ (store w)); [reflexivity|].
    rewrite !vc_names_run. unfold log, logs. cbn [store trace].
    rewrite <- !app_assoc. cbn [app].
    destruct (names_of _); reflexivity.
Qed.

(** ** The paths of the handler *)

(** Every call of the handler follows one of the paths. *)
Lemma process_vc_url_paths L E url w :
  exists r s' evs,
    process_vc_url L E url w = (r, mkWorld s' (trace w ++ evs)) /\
    Run L E url (store w) r s' evs.
Proof.
  rewrite process_vc_url_run.
  destruct (fetched L E url) as [[texts links]|] eqn:Hf.
  2:{ eexists _, _, _. split; [reflexivity|]. now constructor. }
  unfold after_fetch.
  destruct (extracted L E (texts ++ links)) as [e|info] eqn:Hx.
  { eexists _, _, _. split; [unfold logs; cbn [store trace]; rewrite <- app_assoc;
      reflexivity|]. econstructor; eauto. }
  destruct (extracted_shape _ _ _ _ Hx)
    as (parsed & n & c & i & r & _ & _ & _ & _ & _ & Hinfo).
  assert (Hn : dict_get "vc_name" info = Some n) by (subst info; reflexivity).
  rewrite Hn. unfold store_phase, respond. rewrite !logs_logs, !store_logs.
  destruct (names_of (store w)) as [e|names] eqn:Hnames.
  { eexists _, _, _. split; [reflexivity|]. econstructor; eauto. }
  destruct (py_in n names) eqn:Hin.
  { rewrite ?logs_logs, ?store_logs.
    eexists _, _, _. split; [reflexivity|]. eapply run_known; eauto. }
  destruct (existsb _ (store w)) eqn:Hu.
  { rewrite ?logs_logs.
    eexists _, _, _. split; [reflexivity|]. eapply run_collision; eauto. }
  unfold logs. cbn [store trace]. rewrite <- !app_assoc. cbn [app].
  eexists _, _, _. split; [reflexivity|]. eapply run_inserted; eauto.
Qed.


(** ** Supporting facts *)

Lemma scrape_returns L E url w r :
  fst (scrape_texts_and_links L E url w) = Returned r <-> fetched L E url = r.
Proof.
  rewrite scrape_run. simpl. split; [now intros [= ->]|now intros ->].
Qed.

Lemma extract_returns L E text w info :
  fst (extract_vc_information L E text w) = Returned (Some info) <->
  extracted L E text = inr info.
Proof.
  rewrite extract_run. destruct (extracted L E text); simpl; split; intros H;
    try discriminate; congruence.
Qed.

Lemma extract_returns_none L E text w :
  fst (extract_vc_information L E text w) = Returned None <->
  exists e, extracted L E text = inl e.
Proof.
  rewrite extract_run. destruct (extracted L E text); simpl; split.
  - eauto.
  - reflexivity.
  - discriminate.
  - intros [e0 H]. discriminate.
Qed.

Lemma extracts_iff L E url info :
  extracts L E url info <->
  exists texts links,
    fetched L E url = Some (texts, links) /\ extracted L E (texts ++ links) = inr info.
Proof.
  split.
  - intros (texts & links & Hs & Hx). exists texts, links. split.
    + apply (scrape_returns L E url (mkWorld [] [])), Hs.
    + apply (extract_returns L E _ (mkWorld [] [])), Hx.
  - intros (texts & links & Hf & Hx). exists texts, links. split; intros w.
    + now apply scrape_returns.
    + now apply extract_returns.
Qed.

Lemma names_of_In objects names :
  names_of objects = inr names ->
  forall n, In n names <->
            exists o, In o objects /\ dict_get "vc_name" (obj_properties o) = Some n.
Proof.
  revert names. induction objects as [|o objects IH]; simpl; intros names H n.
  - injection H as <-. simpl. split; [tauto|]. intros (o & [] & _).
  - unfold dict_getitem in H.
    destruct (dict_get "vc_name" (obj_properties o)) as [n0|] eqn:Hn0; simpl in H;
      [|discriminate].
    destruct (names_of objects) as [|ns]; simpl in H; [discriminate|].
    injection H as <-. simpl. rewrite (IH ns eq_refl n). split.
    + intros [<-|(o' & Hin & Hd)]; eauto.
    + intros (o' & [<-|Hin] & Hd); [left; congruence|right; eauto].
Qed.

Lemma py_in_stored objects names name :
  names_of objects = inr names ->
  py_in name names = true <-> stored_name name objects.
Proof.
  intros H. unfold py_in, stored_name. rewrite existsb_exists. split.
  - intros (n & Hin & Heq). apply (names_of_In _ _ H) in Hin as (o & Ho & Hd). eauto.
  - intros (o & n & Ho & Hd & Heq). exists n. split; [|exact Heq].
    apply (names_of_In _ _ H). eauto.
Qed.

Lemma append_empty_r (s : string) : s ++ EmptyString = s.
Proof. induction s; simpl; congruence. Qed.

Lemma append_assoc (a b c : string) : (a ++ b) ++ c = a ++ (b ++ c).
Proof. induction a; simpl; congruence. Qed.

(** Only the list of the one string "no info" equals it. *)
Lemma py_eq_no_info v : py_eq v no_info = true <-> v = no_info.
Proof.
  unfold no_info. split; [|intros ->; reflexivity].
  destruct v as [| | | |l|]; simpl; try discriminate.
  destruct l as [|x [|y l]]; try discriminate.
  - destruct x; simpl; try discriminate.
    rewrite andb_true_r. intros H. apply String.eqb_eq in H. now subst.
  - destruct x; simpl; try discriminate. rewrite andb_false_r. discriminate.
Qed.

(** ** The properties *)

(** *** Failed fetch *)

(** C1. When the fetch fails, [scrape_texts_and_links] returns [None] and
    the handler unpacks it before it tests it: the request ends with an
    uncaught [TypeError], answered with status 500, not with the
    [HTTPException] of status 400 that the handler holds ready.  The
    index is not touched. *)
Theorem failed_fetch_raises_type_error L E url w :
  fst (scrape_texts_and_links L E url w) = Returned None ->
  process_vc_url L E url w = (Raised TypeError, logs [RequestsGet url] w) /\
  response_status (fst (process_vc_url L E url w)) = 500%Z /\
  existsb is_store_event (events_of (process_vc_url L E url) w) = false.
Proof.
  intros H. apply scrape_returns in H.
  assert (Hrun : process_vc_url L E url w = (Raised TypeError, logs [RequestsGet url] w))
    by (rewrite process_vc_url_run, H; reflexivity).
  split; [exact Hrun|]. split; [now rewrite Hrun|].
  now rewrite (events_of_eq _ _ _ _ _ Hrun).
Qed.

Lemma failed_fetch_raises_type_error_witness :
  fst (scrape_texts_and_links (Sample.library Sample.soup)
         (Sample.services 404 Sample.answer) Sample.url Sample.stocked) = Returned None /\
  response_status
    (fst (process_vc_url (Sample.library Sample.soup)
            (Sample.services 404 Sample.answer) Sample.url Sample.stocked)) = 500%Z.
Proof.
  split; [reflexivity|].
  apply (failed_fetch_raises_type_error (Sample.library Sample.soup)
           (Sample.services 404 Sample.answer) Sample.url Sample.stocked).
  reflexivity.
Defined.

(** A status from 400 to 599, or no answer at all, is a failed fetch. *)
Lemma fetch_fails L E url w :
  (requests_get E url = None \/
   exists response, requests_get E url = Some response /\
                    400 <= status_code response < 600)%Z ->
  fst (scrape_texts_and_links L E url w) = Returned None.
Proof.
  intros H. apply scrape_returns. unfold fetched.
  destruct H as [->|(response & -> & Hlo & Hhi)]; [reflexivity|].
  apply Z.leb_le in Hlo. apply Z.ltb_lt in Hhi. now rewrite Hlo, Hhi.
Qed.

(** *** The extracted record *)

Lemma coerce_coerced raw : coerced raw (coerce raw).
Proof. unfold coerced, coerce. destruct raw; simpl; repeat split; congruence. Qed.

(** C2, as stated, fails: the model answers with a scalar name, the
    extraction succeeds, and the [vc_name] of the record is that bare
    string, not a sequence. *)
Lemma extracted_vc_name_is_bare_string :
  fst (extract_vc_information (Sample.library Sample.soup)
         (Sample.services 200 Sample.answer) "Acme Ventures" Sample.empty)
  = Returned (Some Sample.record) /\
  dict_get "vc_name" Sample.record = Some (PyStr "Acme Ventures") /\
  is_sequence (PyStr "Acme Ventures") = false /\
  forallb is_sequence (map snd Sample.record) = false.
Proof. repeat split; reflexivity. Qed.

(** C2, amended.  When [extract_vc_information] succeeds, the record has
    exactly the keys [vc_name], [contacts], [industries],
    [investment_rounds], in this order.  [vc_name] holds the value the
    model gave, as it is.  Each of the other three holds the model's value
    wrapped into a list of one element when that value is a string, and
    the model's value itself otherwise, so none of the three is ever a
    bare string. *)
Theorem extracted_record_shape L E text w info :
  fst (extract_vc_information L E text w) = Returned (Some info) ->
  exists parsed vc_name contacts industries investment_rounds c i r,
    model_answers L E text parsed /\
    getitem_key parsed "vc_name" = inr vc_name /\
    getitem_key parsed "contacts" = inr contacts /\
    getitem_key parsed "industries" = inr industries /\
    getitem_key parsed "investment_rounds" = inr investment_rounds /\
    info = [ ("vc_name", vc_name); ("contacts", c);
             ("industries", i); ("investment_rounds", r) ] /\
    dict_keys info = ["vc_name"; "contacts"; "industries"; "investment_rounds"] /\
    coerced contacts c /\ coerced industries i /\ coerced investment_rounds r.
Proof.
  intros H. apply extract_returns in H.
  destruct (extracted_shape _ _ _ _ H)
    as (parsed & n & c & i & r & Hm & H1 & H2 & H3 & H4 & ->).
  exists parsed, n, c, i, r, (coerce c), (coerce i), (coerce r).
  repeat split; auto using coerce_coerced; apply coerce_coerced.
Qed.

Lemma extracted_record_shape_witness :
  exists info,
    fst (extract_vc_information (Sample.library Sample.soup)
           (Sample.services 200 Sample.answer) "Acme Ventures" Sample.empty)
    = Returned (Some info) /\
    dict_keys info = ["vc_name"; "contacts"; "industries"; "investment_rounds"].
Proof.
  exists Sample.record. split; [reflexivity|].
  destruct (extracted_record_shape (Sample.library Sample.soup)
              (Sample.services 200 Sample.answer) "Acme Ventures" Sample.empty
              Sample.record eq_refl)
    as (_ & _ & _ & _ & _ & _ & _ & _ & _ & _ & _ & _ & _ & _ & Hk & _).
  exact Hk.
Defined.

(** *** Formatting *)

Lemma concat_cons (x : string) (xs : list string) :
  String.concat EmptyString (x :: xs) = x ++ String.concat EmptyString xs.
Proof.
  destruct xs; cbn [String.concat]; [now rewrite append_empty_r|reflexivity].
Qed.

(** The summary is the introductory sentence followed by the lines of the
    bindings, in the order of the dict. *)
Lemma format_information_app info url :
  format_information info url =
  intro_line ++ String.concat EmptyString (map (fun kv => summary_line url (fst kv) (snd kv)) info).
Proof.
  unfold format_information. fold intro_line.
  generalize intro_line as prompt.
  induction info as [|kv info IH]; intros prompt.
  - simpl. now rewrite append_empty_r.
  - cbn [fold_left map]. rewrite IH, concat_cons. cbv zeta. unfold summary_line.
    destruct (py_eq (snd kv) no_info); unfold check_manually, field_value;
      now rewrite <- !append_assoc.
Qed.

Lemma format_information_four vc_name contacts industries investment_rounds url :
  format_information
    [ ("vc_name", vc_name); ("contacts", contacts);
      ("industries", industries); ("investment_rounds", investment_rounds) ] url
  = "The information from the URL is the following: " ++ LF
    ++ summary_line url "vc_name" vc_name
    ++ summary_line url "contacts" contacts
    ++ summary_line url "industries" industries
    ++ summary_line url "investment_rounds" investment_rounds.
Proof.
  rewrite format_information_app. unfold intro_line.
  cbn [map String.concat fst snd]. now rewrite append_assoc.
Qed.

Lemma summary_line_spec url key v :
  field_line (capitalize key) v url (summary_line url key v).
Proof.
  unfold field_line, summary_line. fold no_info.
  destruct (py_eq v no_info) eqn:Hv.
  - apply py_eq_no_info in Hv. split; [reflexivity|congruence].
  - split; [|reflexivity]. intros ->. discriminate.
Qed.

(** C4. The summary of a record is the introductory sentence followed by
    one line per field, in the order [vc_name], [contacts], [industries],
    [investment_rounds], each line ended by a newline: the sentence that
    sends the reader to the site when the value is exactly the list of
    the one string "no info", and the capitalized field name, a colon and
    the value otherwise. *)
Theorem format_information_lines vc_name contacts industries investment_rounds url :
  exists l1 l2 l3 l4,
    format_information
      [ ("vc_name", vc_name); ("contacts", contacts);
        ("industries", industries); ("investment_rounds", investment_rounds) ] url
    = "The information from the URL is the following: " ++ LF ++ l1 ++ l2 ++ l3 ++ l4 /\
    field_line "Vc_name" vc_name url l1 /\
    field_line "Contacts" contacts url l2 /\
    field_line "Industries" industries url l3 /\
    field_line "Investment_rounds" investment_rounds url l4.
Proof.
  exists (summary_line url "vc_name" vc_name), (summary_line url "contacts" contacts),
    (summary_line url "industries" industries),
    (summary_line url "investment_rounds" investment_rounds).
  split; [apply format_information_four|].
  split; [exact (summary_line_spec url "vc_name" vc_name)|].
  split; [exact (summary_line_spec url "contacts" contacts)|].
  split; [exact (summary_line_spec url "industries" industries)|].
  exact (summary_line_spec url "investment_rounds" investment_rounds).
Qed.

(** C10. The model names the firm "no info": the record keeps that bare
    string under [vc_name], unwrapped; the bare string is not equal to
    the list of the one string "no info"; and the summary has the line
    "- Vc_name: no info" for the name, where each of the other fields has
    its own line, which is the sentence that sends the reader to the site
    when the field holds the sentinel. *)
Theorem vc_name_no_info_is_printed L E text w fields contacts industries investment_rounds :
  model_answers L E text (PyDict fields) ->
  dict_get "vc_name" fields = Some (PyStr "no info") ->
  dict_get "contacts" fields = Some contacts ->
  dict_get "industries" fields = Some industries ->
  dict_get "investment_rounds" fields = Some investment_rounds ->
  exists c i r,
    let info := [ ("vc_name", PyStr "no info"); ("contacts", c);
                  ("industries", i); ("investment_rounds", r) ] in
    fst (extract_vc_information L E text w) = Returned (Some info) /\
    py_eq (PyStr "no info") (PyList [PyStr "no info"]) = false /\
    forall url, exists l2 l3 l4,
      format_information info url
      = "The information from the URL is the following: " ++ LF
        ++ "- Vc_name: no info" ++ LF ++ l2 ++ l3 ++ l4 /\
      field_line "Contacts" c url l2 /\
      field_line "Industries" i url l3 /\
      field_line "Investment_rounds" r url l4.
Proof.
  intros Hm H1 H2 H3 H4.
  exists (coerce contacts), (coerce industries), (coerce investment_rounds).
  split.
  { apply extract_returns. rewrite (extracted_answer _ _ _ _ Hm).
    unfold answer_record, getitem_key. now rewrite H1, H2, H3, H4. }
  split; [reflexivity|].
  intros url.
  exists (summary_line url "contacts" (coerce contacts)),
    (summary_line url "industries" (coerce industries)),
    (summary_line url "investment_rounds" (coerce investment_rounds)).
  split.
  - rewrite format_information_four. reflexivity.
  - split; [exact (summary_line_spec url "contacts" _)|].
    split; [exact (summary_line_spec url "industries" _)|].
    exact (summary_line_spec url "investment_rounds" _).
Qed.

Lemma vc_name_no_info_is_printed_witness :
  exists info,
    fst (extract_vc_information (Sample.library Sample.soup)
           (Sample.services 200 Sample.blank_answer) "Nothing here" Sample.empty)
    = Returned (Some info) /\
    dict_get "vc_name" info = Some (PyStr "no info").
Proof.
  destruct (vc_name_no_info_is_printed (Sample.library Sample.soup)
              (Sample.services 200 Sample.blank_answer) "Nothing here" Sample.empty
              [ ("vc_name", PyStr "no info"); ("contacts", PyStr "no info");
                ("industries", PyStr "no info"); ("investment_rounds", PyStr "no info") ]
              (PyStr "no info") (PyStr "no info") (PyStr "no info"))
    as (c & i & r & Hx & _).
  - exists (json_dumps (completion (PyStr (json_dumps Sample.blank_answer)))),
      (json_dumps Sample.blank_answer).
    repeat split; reflexivity.
  - reflexivity.
  - reflexivity.
  - reflexivity.
  - reflexivity.
  - eexists. split; [exact Hx|reflexivity].
Defined.

(** *** Failed extraction *)

Lemma extraction_fails L E text :
  ExtractionFails L E text <-> exists e, extracted L E text = inl e.
Proof.
  split.
  - intros [H|response H Hl|response e H Hc|response v H Hc Hv|response s H Hc Hl
           |parsed key e Hm Hk Hg].
    + unfold extracted. rewrite H. eauto.
    + unfold extracted, message_content, decode. rewrite H, Hl. simpl. eauto.
    + unfold extracted. rewrite H, Hc. simpl. eauto.
    + unfold extracted. rewrite H, Hc. simpl. destruct v; try discriminate; eauto.
    + unfold extracted, decode. rewrite H, Hc. simpl. rewrite Hl. simpl. eauto.
    + rewrite (extracted_answer _ _ _ _ Hm). unfold answer_record.
      simpl in Hk. destruct Hk as [<-|[<-|[<-|[<-|[]]]]]; rewrite Hg;
        repeat match goal with
        | |- context [sum_bind (getitem_key parsed ?k) _] =>
            destruct (getitem_key parsed k); cbn [sum_bind]; eauto
        end.
  - intros [e He]. unfold extracted in He.
    destruct (chat_completions_create E text) as [response|] eqn:Hr;
      [|now apply llm_call_raises].
    destruct (message_content L response) as [e0|v] eqn:Hc; cbn [sum_bind] in He;
      [now apply (no_message_content _ _ _ response e0)|].
    destruct (isinstance_str v) eqn:Hv;
      [|now apply (content_not_a_string _ _ _ response v)].
    destruct v as [| | |s| |]; try discriminate Hv.
    unfold decode in He.
    destruct (json_loads L s) as [parsed|] eqn:Hs; cbn [sum_bind] in He;
      [|now apply (malformed_content _ _ _ response s)].
    assert (Hm : model_answers L E text parsed) by (exists response, s; auto).
    unfold answer_record in He.
    destruct (getitem_key parsed "vc_name") as [e1|x1] eqn:H1; cbn [sum_bind] in He;
      [apply (missing_key _ _ _ parsed "vc_name" e1); simpl; auto|].
    destruct (getitem_key parsed "contacts") as [e2|x2] eqn:H2; cbn [sum_bind] in He;
      [apply (missing_key _ _ _ parsed "contacts" e2); simpl; auto|].
    destruct (getitem_key parsed "industries") as [e3|x3] eqn:H3; cbn [sum_bind] in He;
      [apply (missing_key _ _ _ parsed "industries" e3); simpl; auto|].
    destruct (getitem_key parsed "investment_rounds") as [e4|x4] eqn:H4;
      cbn [sum_bind] in He;
      [apply (missing_key _ _ _ parsed "investment_rounds" e4); simpl; auto 6|].
    discriminate He.
Qed.

(** C5. When the extraction fails, [extract_vc_information] returns
    [None] and the handler raises the [HTTPException] of status 500 and
    detail "Failed to extract information.".  The request ends there: the
    model was called once, and the index was not touched. *)
Theorem failed_extraction_is_500 L E url w texts links :
  fst (scrape_texts_and_links L E url w) = Returned (Some (texts, links)) ->
  ExtractionFails L E (texts ++ links) ->
  let run := process_vc_url L E url in
  (forall w', fst (extract_vc_information L E (texts ++ links) w') = Returned None) /\
  fst (run w) = Raised (HTTPException 500 "Failed to extract information.") /\
  response_status (fst (run w)) = 500%Z /\
  events_of run w = [RequestsGet url; ChatCompletionsCreate (texts ++ links); PrintError] /\
  length (filter is_llm_call (events_of run w)) = 1 /\
  existsb is_store_event (events_of run w) = false /\
  store (snd (run w)) = store w.
Proof.
  intros Hs Hfail run. subst run. apply scrape_returns in Hs.
  destruct (proj1 (extraction_fails _ _ _) Hfail) as [e He].
  split.
  { intros w'. apply extract_returns_none. eauto. }
  assert (Hrun : process_vc_url L E url w
                 = (Raised (HTTPException 500 "Failed to extract information."),
                    mkWorld (store w)
                      (trace w ++ [RequestsGet url; ChatCompletionsCreate (texts ++ links);
                                   PrintError]))).
  { rewrite process_vc_url_run, Hs. unfold after_fetch. rewrite He.
    unfold logs. cbn [store trace]. now rewrite <- app_assoc. }
  rewrite (events_of_eq _ _ _ _ _ Hrun), Hrun. repeat split.
Qed.

Lemma failed_extraction_is_500_witness :
  fst (process_vc_url (Sample.library Sample.soup)
         (Sample.services 200 Sample.short_answer) Sample.url Sample.stocked)
  = Raised (HTTPException 500 "Failed to extract information.").
Proof.
  apply (failed_extraction_is_500 (Sample.library Sample.soup)
           (Sample.services 200 Sample.short_answer) Sample.url Sample.stocked
           (get_text Sample.soup) "https://example-vc.com/contact (Contact Us)").
  - reflexivity.
  - apply (missing_key _ _ _ Sample.short_answer "industries" KeyError).
    + exists (json_dumps (completion (PyStr (json_dumps Sample.short_answer)))),
        (json_dumps Sample.short_answer).
      repeat split; reflexivity.
    + simpl. tauto.
    + reflexivity.
Defined.

(** *** Pages without links *)

(** C7. For a page with no anchor that carries an [href], the link
    summary is the empty string, and the text sent to the model is the
    plain text of the page alone. *)
Theorem no_anchor_no_links L E url w response :
  requests_get E url = Some response ->
  (status_code response < 400 \/ 600 <= status_code response)%Z ->
  find_all_a_href (BeautifulSoup L (content response)) = [] ->
  let texts := get_text (BeautifulSoup L (content response)) in
  fst (scrape_texts_and_links L E url w) = Returned (Some (texts, EmptyString)) /\
  exists evs,
    events_of (process_vc_url L E url) w
    = RequestsGet url :: ChatCompletionsCreate texts :: evs.
Proof.
  intros Hr Hst Ha texts.
  assert (Hf : fetched L E url = Some (texts, EmptyString)).
  { unfold fetched. rewrite Hr, Ha.
    replace (Z.leb 400 (status_code response) && Z.ltb (status_code response) 600)
      with false; [reflexivity|].
    symmetry. apply andb_false_iff.
    destruct Hst; [left; apply Z.leb_gt|right; apply Z.ltb_ge]; assumption. }
  split; [now apply scrape_returns|].
  destruct (process_vc_url_paths L E url w) as (r & s' & evs & Hrun & Hpath).
  rewrite (events_of_eq _ _ _ _ _ Hrun).
  destruct Hpath as [H|t l e H|t l i e H|t l i n ns H|t l i n ns H|t l i n ns H];
    rewrite Hf in H; try discriminate; injection H as <- <-;
    rewrite append_empty_r; eauto.
Qed.

Lemma no_anchor_no_links_witness :
  fst (scrape_texts_and_links (Sample.library Sample.plain_soup)
         (Sample.services 200 Sample.answer) Sample.url Sample.empty)
  = Returned (Some ("Acme Ventures invests in fintech.", EmptyString)).
Proof.
  apply (no_anchor_no_links (Sample.library Sample.plain_soup)
           (Sample.services 200 Sample.answer) Sample.url Sample.empty
           (mkResponse 200 Sample.page)).
  - reflexivity.
  - left. reflexivity.
  - reflexivity.
Defined.

(** *** The index *)

Ltac insert_event H :=
  simpl in H;
  repeat match goal with
  | H' : _ \/ _ |- _ => destruct H'
  | H' : False |- _ => destruct H'
  | H' : _ = DataInsert _ _ |- _ => try discriminate H'; injection H' as <- <-
  end.

(** An insert is the insert of the extracted record, under the
    identifier computed from it. *)
Lemma run_insert L E url s r s' evs info uuid :
  Run L E url s r s' evs ->
  In (DataInsert info uuid) evs ->
  uuid = generate_uuid5 L info /\ extracts L E url info.
Proof.
  intros Hrun Hin.
  destruct Hrun; insert_event Hin; (split; [reflexivity|apply extracts_iff; eauto]).
Qed.

(** C9. The handler never rewrites or removes an object of the index.
    After a request the index holds what it held before, or that and one
    more object at the end: the record extracted for this request, whose
    name no object of the index carried. *)
Theorem store_only_grows_by_one L E url w :
  let w' := snd (process_vc_url L E url w) in
  store w' = store w \/
  exists info name,
    extracts L E url info /\
    dict_get "vc_name" info = Some name /\
    ~ stored_name name (store w) /\
    store w' = (store w ++ [mkObject (generate_uuid5 L info) info])%list.
Proof.
  destruct (process_vc_url_paths L E url w) as (r & s' & evs & Hrun & Hpath).
  rewrite Hrun. cbn [snd store].
  destruct Hpath as [H|t l e H Hx|t l i e H Hx Hn|t l i n ns H Hx Hd Hn Hin
                    |t l i n ns H Hx Hd Hn Hin Hu|t l i n ns H Hx Hd Hn Hin Hu];
    try (left; reflexivity).
  right. exists i, n. repeat split; auto.
  - apply extracts_iff. eauto.
  - intros Hst. apply (py_in_stored _ _ _ Hn) in Hst. congruence.
Qed.

Lemma known_name_keeps_store L E url w info name :
  extracts L E url info ->
  dict_get "vc_name" info = Some name ->
  stored_name name (store w) ->
  store (snd (process_vc_url L E url w)) = store w /\
  existsb is_insert (events_of (process_vc_url L E url) w) = false.
Proof.
  intros Hex Hname Hst.
  apply extracts_iff in Hex as (texts & links & Hf & Hx).
  destruct (process_vc_url_paths L E url w) as (r & s' & evs & Hrun & Hpath).
  rewrite (events_of_eq _ _ _ _ _ Hrun), Hrun. cbn [snd store].
  destruct Hpath as [H|t l e H Hx'|t l i e H Hx' Hn|t l i n ns H Hx' Hd Hn Hin
                    |t l i n ns H Hx' Hd Hn Hin Hu|t l i n ns H Hx' Hd Hn Hin Hu];
    try (split; reflexivity);
    rewrite Hf in H; injection H as <- <-;
    rewrite Hx in Hx'; injection Hx' as <-;
    rewrite Hname in Hd; injection Hd as <-;
    apply (py_in_stored _ _ _ Hn) in Hst; congruence.
Qed.

(** C3. When the name of the extracted record is the name of an object
    of the index, the handler inserts nothing and the index is left as it
    was, whatever the other fields of the record are; and so it is for
    every later request that extracts the same name. *)
Theorem known_name_is_not_inserted L E url w info name :
  extracts L E url info ->
  dict_get "vc_name" info = Some name ->
  stored_name name (store w) ->
  let w' := snd (process_vc_url L E url w) in
  store w' = store w /\
  existsb is_insert (events_of (process_vc_url L E url) w) = false /\
  forall E2 url2 info2,
    extracts L E2 url2 info2 ->
    dict_get "vc_name" info2 = Some name ->
    store (snd (process_vc_url L E2 url2 w')) = store w'.
Proof.
  intros Hex Hname Hst w'.
  destruct (known_name_keeps_store L E url w info name Hex Hname Hst) as [Hstore Hev].
  split; [exact Hstore|]. split; [exact Hev|].
  intros E2 url2 info2 Hex2 Hname2.
  apply (known_name_keeps_store L E2 url2 w' info2 name Hex2 Hname2).
  subst w'. now rewrite Hstore.
Qed.

Lemma sample_extracts : extracts (Sample.library Sample.soup)
                          (Sample.services 200 Sample.answer) Sample.url Sample.record.
Proof.
  apply extracts_iff.
  exists (get_text Sample.soup), "https://example-vc.com/contact (Contact Us)".
  split; reflexivity.
Defined.

Lemma known_name_is_not_inserted_witness :
  store (snd (process_vc_url (Sample.library Sample.soup)
                (Sample.services 200 Sample.answer) Sample.url Sample.stocked))
  = store Sample.stocked.
Proof.
  apply (known_name_is_not_inserted (Sample.library Sample.soup)
           (Sample.services 200 Sample.answer) Sample.url Sample.stocked
           Sample.record (PyStr "Acme Ventures")).
  - exact sample_extracts.
  - reflexivity.
  - eexists _, _. split; [left; reflexivity|]. split; reflexivity.
Defined.

(** C6. The identifier under which a record is inserted is
    [generate_uuid5] of that record: it depends on nothing else, so two
    requests, to any addresses and at any state of the index, that insert
    records of the same content insert them under the same identifier. *)
Theorem inserted_identifier_is_deterministic L E1 E2 url1 url2 w1 w2 p1 p2 u1 u2 :
  In (DataInsert p1 u1) (events_of (process_vc_url L E1 url1) w1) ->
  In (DataInsert p2 u2) (events_of (process_vc_url L E2 url2) w2) ->
  u1 = generate_uuid5 L p1 /\
  u2 = generate_uuid5 L p2 /\
  (p1 = p2 -> u1 = u2).
Proof.
  intros H1 H2.
  destruct (process_vc_url_paths L E1 url1 w1) as (r1 & s1 & evs1 & Hrun1 & Hpath1).
  destruct (process_vc_url_paths L E2 url2 w2) as (r2 & s2 & evs2 & Hrun2 & Hpath2).
  rewrite (events_of_eq _ _ _ _ _ Hrun1) in H1.
  rewrite (events_of_eq _ _ _ _ _ Hrun2) in H2.
  destruct (run_insert _ _ _ _ _ _ _ _ _ Hpath1 H1) as [A1 _].
  destruct (run_insert _ _ _ _ _ _ _ _ _ Hpath2 H2) as [A2 _].
  split; [exact A1|]. split; [exact A2|]. intros ->. congruence.
Qed.

Lemma inserted_identifier_is_deterministic_witness :
  let lib := Sample.library Sample.soup in
  let svc := Sample.services 200 Sample.answer in
  let other := mkWorld [mkObject "uuid5:other" [("vc_name", PyStr "Other Capital")]] [] in
  let u := generate_uuid5 lib Sample.record in
  In (DataInsert Sample.record u) (events_of (process_vc_url lib svc Sample.url) Sample.empty) /\
  In (DataInsert Sample.record u) (events_of (process_vc_url lib svc "https://acme.vc") other) /\
  (Sample.record = Sample.record -> u = u).
Proof.
  intros lib svc other u.
  assert (H1 : In (DataInsert Sample.record u)
                 (events_of (process_vc_url lib svc Sample.url) Sample.empty))
    by (vm_compute; tauto).
  assert (H2 : In (DataInsert Sample.record u)
                 (events_of (process_vc_url lib svc "https://acme.vc") other))
    by (vm_compute; tauto).
  split; [exact H1|]. split; [exact H2|].
  apply (inserted_identifier_is_deterministic lib svc svc Sample.url "https://acme.vc"
           Sample.empty other Sample.record Sample.record u u H1 H2).
Defined.

(** *** The similarity lookup *)

Lemma names_of_length objects names :
  names_of objects = inr names -> length names = length objects.
Proof.
  revert names. induction objects as [|o objects IH]; simpl; intros names H.
  - now injection H as <-.
  - destruct (dict_getitem (obj_properties o) "vc_name"); simpl in H; [discriminate|].
    destruct (names_of objects) as [|ns]; simpl in H; [discriminate|].
    injection H as <-. simpl. now rewrite (IH ns eq_refl).
Qed.

Lemma answer_returned E info url objects body :
  answer E info url objects = Returned body ->
  exists similar,
    names_of (firstn 3 (near_text_order E (py_str (PyDict info)) objects)) = inr similar /\
    length similar <= 3 /\
    body = [ "Message: " ++ format_information info url ++ " " ++ LF
             ++ " Similar companies: " ++ py_repr (PyList similar) ].
Proof.
  unfold answer.
  destruct (names_of _) as [e|similar] eqn:Hn; simpl; [discriminate|].
  intros [= <-]. exists similar. split; [reflexivity|]. split; [|reflexivity].
  rewrite (names_of_length _ _ Hn). apply firstn_le_length.
Qed.

(** C8. A request that is answered ends with one nearest-neighbour query
    on the index.  The query text is the extracted record, printed as a
    dict; the query asks for 3 objects and for their distances.  The
    answer lists the [vc_name] of each object the index returned, of which
    there are at most 3, and nothing else of them. *)
Theorem similarity_lookup L E url w body :
  fst (process_vc_url L E url w) = Returned body ->
  let w' := snd (process_vc_url L E url w) in
  exists info prior similar,
    extracts L E url info /\
    events_of (process_vc_url L E url) w
    = (prior ++ [QueryNearText (py_str (PyDict info)) 3 true])%list /\
    existsb is_near_text prior = false /\
    names_of (firstn 3 (near_text_order E (py_str (PyDict info)) (store w')))
    = inr similar /\
    length similar <= 3 /\
    body = [ "Message: " ++ format_information info url ++ " " ++ LF
             ++ " Similar companies: " ++ py_repr (PyList similar) ].
Proof.
  destruct (process_vc_url_paths L E url w) as (r & s' & evs & Hrun & Hpath).
  rewrite (events_of_eq _ _ _ _ _ Hrun), Hrun. cbn [fst snd store].
  destruct Hpath as [H|t l e H Hx|t l i e H Hx Hn|t l i n ns H Hx Hd Hn Hin
                    |t l i n ns H Hx Hd Hn Hin Hu|t l i n ns H Hx Hd Hn Hin Hu];
    try discriminate; intros Hb;
    destruct (answer_returned _ _ _ _ _ Hb) as (similar & Hs & Hlen & Hbody);
    exists i; eexists; exists similar;
    (split; [apply extracts_iff; eauto|]);
    (split; [|split; [|split; [exact Hs|split; [exact Hlen|exact Hbody]]]]).
  - instantiate (1 := [_; _; _; _]). reflexivity.
  - reflexivity.
  - instantiate (1 := [_; _; _; _; _]). reflexivity.
  - reflexivity.
Qed.

Lemma similarity_lookup_witness :
  exists info prior (similar : list value),
    extracts (Sample.library Sample.soup) (Sample.services 200 Sample.answer)
      Sample.url info /\
    events_of (process_vc_url (Sample.library Sample.soup)
                 (Sample.services 200 Sample.answer) Sample.url) Sample.stocked
    = (prior ++ [QueryNearText (py_str (PyDict info)) 3 true])%list /\
    length similar <= 3.
Proof.
  destruct (similarity_lookup (Sample.library Sample.soup)
              (Sample.services 200 Sample.answer) Sample.url Sample.stocked
              [ "Message: " ++ format_information Sample.record Sample.url ++ " " ++ LF
                ++ " Similar companies: " ++ py_repr (PyList [PyStr "Acme Ventures"]) ]
              eq_refl)
    as (info & prior & similar & Hex & Hev & _ & _ & Hlen & _).
  exists info, prior, similar. repeat split; assumption.
Defined.

(** *** A name submitted twice *)

Lemma dict_get_distinct (items : list (string * value)) k v :
  distinct (map fst items) = true -> In (k, v) items -> dict_get k items = Some v.
Proof.
  induction items as [|[k0 v0] items IH]; simpl; [tauto|].
  intros Hd Hin. apply andb_true_iff in Hd as [Hfresh Hd].
  destruct Hin as [[= -> ->]|Hin]; [now rewrite String.eqb_refl|].
  destruct (String.eqb k0 k) eqn:Hk; [|now apply IH].
  apply String.eqb_eq in Hk. subst k0. exfalso.
  apply negb_true_iff in Hfresh.
  assert (Hex : existsb (String.eqb k) (map fst items) = true).
  { apply existsb_exists. exists k. split; [|apply String.eqb_refl].
    apply in_map_iff. now exists (k, v). }
  congruence.
Qed.

(** On the values Python can hold, [==] is reflexive. *)
Lemma py_eq_refl v : well_formed v = true -> py_eq v v = true.
Proof.
  induction v as [|b|z|s|l IH|items IH] using value_induction; simpl; intros Hwf.
  - reflexivity.
  - apply Bool.eqb_reflx.
  - apply Z.eqb_refl.
  - apply String.eqb_refl.
  - induction IH as [|x l Hx _ IHl]; [reflexivity|].
    simpl in Hwf. apply andb_true_iff in Hwf as [Hwx Hwl].
    now rewrite (Hx Hwx), (IHl Hwl).
  - apply andb_true_iff in Hwf as [Hd Hwf]. rewrite Nat.eqb_refl. simpl.
    assert (G : forall xs,
      incl xs items ->
      (fix all_bound (xs : list (string * value)) : bool :=
         match xs with
         | [] => true
         | (k, v) :: xs' =>
             match dict_get k items with
             | Some v' => py_eq v v'
             | None => false
             end && all_bound xs'
         end) xs = true).
    { induction xs as [|[k v] xs IHxs]; intros Hincl; [reflexivity|].
      assert (Hin : In (k, v) items) by (apply Hincl; now left).
      rewrite (dict_get_distinct _ _ _ Hd Hin).
      rewrite Forall_forall in IH. rewrite forallb_forall in Hwf.
      rewrite (IH (k, v) Hin : well_formed v = true -> py_eq v v = true)
        by exact (Hwf (k, v) Hin).
      simpl. apply IHxs. intros x Hx. apply Hincl. now right. }
    apply G, incl_refl.
Qed.

(** A request that was answered leaves the name it extracted in the
    index, so a second request that extracts the same name, with the
    same or with other fields, leaves the index as the first one left
    it. *)
Lemma resubmission_keeps_store L E1 E2 url1 url2 w info1 info2 name body :
  well_formed name = true ->
  extracts L E1 url1 info1 ->
  dict_get "vc_name" info1 = Some name ->
  fst (process_vc_url L E1 url1 w) = Returned body ->
  extracts L E2 url2 info2 ->
  dict_get "vc_name" info2 = Some name ->
  let w1 := snd (process_vc_url L E1 url1 w) in
  stored_name name (store w1) /\
  store (snd (process_vc_url L E2 url2 w1)) = store w1.
Proof.
  intros Hwf Hex1 Hname1 Hret Hex2 Hname2 w1.
  assert (Hst : stored_name name (store w1)).
  { subst w1. apply extracts_iff in Hex1 as (texts & links & Hf & Hx).
    destruct (process_vc_url_paths L E1 url1 w) as (r & s' & evs & Hrun & Hpath).
    rewrite Hrun in *. cbn [fst snd store] in *.
    destruct Hpath as [H|t l e H Hx'|t l i e H Hx' Hn|t l i n ns H Hx' Hd Hn Hin
                      |t l i n ns H Hx' Hd Hn Hin Hu|t l i n ns H Hx' Hd Hn Hin Hu];
      try discriminate;
      rewrite Hf in H; injection H as <- <-;
      rewrite Hx in Hx'; injection Hx' as <-;
      rewrite Hname1 in Hd; injection Hd as <-.
    - now apply (py_in_stored _ _ _ Hn).
    - exists (mkObject (generate_uuid5 L info1) info1), name.
      split; [apply in_or_app; right; now left|].
      split; [exact Hname1|now apply py_eq_refl]. }
  split; [exact Hst|].
  apply (known_name_keeps_store L E2 url2 w1 info2 name Hex2 Hname2 Hst).
Qed.

(** ** Further properties of the four functions *)

(** *** [scrape_texts_and_links] *)





(** *** [extract_vc_information] *)

(** X3. [extract_vc_information] never raises, whatever the model or the
    decoder do.  It calls the model once, prints one error message when
    and only when it returns [None], and leaves the index alone. *)
Theorem extract_never_raises L E text w :
  exists r,
    extract_vc_information L E text w
    = (Returned r,
       mkWorld (store w)
         (trace w ++ ChatCompletionsCreate text
                     :: match r with Some _ => [] | None => [PrintError] end)).
Proof.
  rewrite extract_run.
  destruct (extracted L E text) as [e|info]; [exists None|exists (Some info)]; reflexivity.
Qed.

(** X4. [extract_vc_information] returns [None] exactly when the call
    raised, the response held no message content, the content was not a
    string that decodes, or the decoded document lacked one of the four
    keys; in every other case it returns a record. *)
Theorem extraction_fails_exactly L E text w :
  (fst (extract_vc_information L E text w) = Returned None <-> ExtractionFails L E text) /\
  ((exists info, fst (extract_vc_information L E text w) = Returned (Some info)) <->
   ~ ExtractionFails L E text).
Proof.
  split.
  - rewrite extract_returns_none. symmetry. apply extraction_fails.
  - split.
    + intros [info H] Hfail. apply extract_returns in H.
      apply extraction_fails in Hfail as [e He]. congruence.
    + intros Hok. destruct (extracted L E text) as [e|info] eqn:Hx.
      * exfalso. apply Hok, extraction_fails. eauto.
      * exists info. now apply extract_returns.
Qed.

(** *** [format_information] *)

Lemma concat_app (l1 l2 : list string) :
  String.concat EmptyString (l1 ++ l2)
  = String.concat EmptyString l1 ++ String.concat EmptyString l2.
Proof.
  induction l1 as [|x l1 IH]; [reflexivity|].
  change ((x :: l1) ++ l2)%list with (x :: (l1 ++ l2))%list.
  now rewrite !concat_cons, IH, append_assoc.
Qed.

(** X5. [format_information] works on a dict of any keys and any size:
    for the empty dict the summary is the introductory sentence alone,
    and the summary of a dict extended by further bindings is the summary
    of the dict followed by the lines of those bindings, in their order. *)
Theorem format_information_append (d1 d2 : dict) url :
  format_information [] url = "The information from the URL is the following: " ++ LF /\
  format_information (d1 ++ d2)%list url
  = format_information d1 url
    ++ String.concat EmptyString (map (fun kv => summary_line url (fst kv) (snd kv)) d2).
Proof.
  split; [reflexivity|].
  now rewrite !format_information_app, map_app, concat_app, append_assoc.
Qed.

(** X6. The address of the site enters the summary through the lines of
    the fields that hold the sentinel only: when no field holds it, the
    summary is the same for every address. *)
Theorem summary_without_sentinel_ignores_url info url1 url2 :
  (forall key v, In (key, v) info -> v <> PyList [PyStr "no info"]) ->
  format_information info url1 = format_information info url2.
Proof.
  intros H. rewrite !format_information_app. f_equal. f_equal.
  apply map_ext_in. intros [key v] Hin. cbn [fst snd]. unfold summary_line.
  destruct (py_eq v no_info) eqn:Hv; [|reflexivity].
  apply py_eq_no_info in Hv. now apply H in Hin.
Qed.

Lemma summary_without_sentinel_ignores_url_witness :
  format_information
    [ ("vc_name", PyStr "no info"); ("contacts", PyList [PyStr "hello@acme.vc"]) ]
    "https://example-vc.com"
  = format_information
      [ ("vc_name", PyStr "no info"); ("contacts", PyList [PyStr "hello@acme.vc"]) ]
      "https://acme.vc".
Proof.
  apply (summary_without_sentinel_ignores_url
           [ ("vc_name", PyStr "no info"); ("contacts", PyList [PyStr "hello@acme.vc"]) ]
           "https://example-vc.com" "https://acme.vc").
  intros key v [[= <- <-]|[[= <- <-]|[]]]; discriminate.
Defined.

Lemma coerce_says_no_info v : says_no_info v -> coerce v = PyList [PyStr "no info"].
Proof. intros [->| ->]; reflexivity. Qed.

(** X7. For [contacts], [industries] and [investment_rounds] the model
    may report a field as not found by the string "no info" or by the
    list of that one string: in both cases the record holds the list, and
    the summary has the sentence that sends the reader to the site for
    that field. *)
Theorem no_info_fields_send_reader_to_site
  L E text w parsed vc_name contacts industries investment_rounds :
  model_answers L E text parsed ->
  getitem_key parsed "vc_name" = inr vc_name ->
  getitem_key parsed "contacts" = inr contacts ->
  getitem_key parsed "industries" = inr industries ->
  getitem_key parsed "investment_rounds" = inr investment_rounds ->
  exists c i r,
    let info := [ ("vc_name", vc_name); ("contacts", c);
                  ("industries", i); ("investment_rounds", r) ] in
    fst (extract_vc_information L E text w) = Returned (Some info) /\
    (says_no_info contacts -> c = PyList [PyStr "no info"]) /\
    (says_no_info industries -> i = PyList [PyStr "no info"]) /\
    (says_no_info investment_rounds -> r = PyList [PyStr "no info"]) /\
    forall url, exists l1 l2 l3 l4,
      format_information info url
      = "The information from the URL is the following: " ++ LF ++ l1 ++ l2 ++ l3 ++ l4 /\
      (says_no_info contacts -> l2 = check_manually "Contacts" url) /\
      (says_no_info industries -> l3 = check_manually "Industries" url) /\
      (says_no_info investment_rounds -> l4 = check_manually "Investment_rounds" url).
Proof.
  intros Hm H1 H2 H3 H4.
  exists (coerce contacts), (coerce industries), (coerce investment_rounds).
  split.
  { apply extract_returns. rewrite (extracted_answer _ _ _ _ Hm).
    unfold answer_record. now rewrite H1, H2, H3, H4. }
  split; [apply coerce_says_no_info|].
  split; [apply coerce_says_no_info|].
  split; [apply coerce_says_no_info|].
  intros url.
  exists (summary_line url "vc_name" vc_name),
    (summary_line url "contacts" (coerce contacts)),
    (summary_line url "industries" (coerce industries)),
    (summary_line url "investment_rounds" (coerce investment_rounds)).
  split; [apply format_information_four|].
  repeat split; intros H; rewrite (coerce_says_no_info _ H); reflexivity.
Qed.

Lemma no_info_fields_send_reader_to_site_witness :
  exists (c i r : value),
    fst (extract_vc_information (Sample.library Sample.soup)
           (Sample.services 200 Sample.answer) "Acme Ventures" Sample.empty)
    = Returned (Some [ ("vc_name", PyStr "Acme Ventures"); ("contacts", c);
                       ("industries", i); ("investment_rounds", r) ]) /\
    r = PyList [PyStr "no info"].
Proof.
  destruct (no_info_fields_send_reader_to_site (Sample.library Sample.soup)
              (Sample.services 200 Sample.answer) "Acme Ventures" Sample.empty
              Sample.answer (PyStr "Acme Ventures") (PyStr "hello@acme.vc")
              (PyList [PyStr "fintech"; PyStr "healthtech"]) (PyStr "no info"))
    as (c & i & r & Hx & _ & _ & Hr & _).
  - exists (json_dumps (completion (PyStr (json_dumps Sample.answer)))),
      (json_dumps Sample.answer).
    repeat split; reflexivity.
  - reflexivity.
  - reflexivity.
  - reflexivity.
  - reflexivity.
  - exists c, i, r. split; [exact Hx|]. apply Hr. left. reflexivity.
Defined.

(** *** [process_vc_url] *)

Lemma names_of_error objects e : names_of objects = inl e -> e = KeyError.
Proof.
  induction objects as [|o objects IH]; simpl; [discriminate|].
  unfold dict_getitem.
  destruct (dict_get "vc_name" (obj_properties o)); simpl; [|now intros [= <-]].
  destruct (names_of objects); simpl; [|discriminate].
  intros [= <-]. now apply IH.
Qed.

Lemma names_of_named objects :
  Forall named objects -> exists names, names_of objects = inr names.
Proof.
  induction 1 as [|o objects Ho _ [names IH]]; simpl; [eauto|].
  unfold named in Ho. unfold dict_getitem.
  destruct (dict_get "vc_name" (obj_properties o)); [|congruence].
  simpl. rewrite IH. simpl. eauto.
Qed.

Lemma answer_outcome E info url objects :
  (exists body, answer E info url objects = Returned body) \/
  answer E info url objects = Raised KeyError.
Proof.
  unfold answer. destruct (names_of _) as [e|similar] eqn:Hn; simpl.
  - right. now rewrite (names_of_error _ _ Hn).
  - left. eauto.
Qed.

Ltac run_paths Hpath :=
  destruct Hpath as [H|t l e H Hx|t l i e H Hx Hn|t l i n ns H Hx Hd Hn Hin
                    |t l i n ns H Hx Hd Hn Hin Hu|t l i n ns H Hx Hd Hn Hin Hu].

(** X8. Every request is answered with status 200 or with status 500.
    The handler never raises its [HTTPException] of status 400: the test
    that guards it is made on a string, which is never [None]. *)
Theorem status_is_200_or_500 L E url w :
  let r := fst (process_vc_url L E url w) in
  (response_status r = 200 \/ response_status r = 500)%Z /\
  forall detail, r <> Raised (HTTPException 400 detail).
Proof.
  destruct (process_vc_url_paths L E url w) as (r & s' & evs & Hrun & Hpath).
  rewrite Hrun. cbn [fst].
  run_paths Hpath;
    try (split; [right; reflexivity|discriminate]).
  - apply names_of_error in Hn. subst e. split; [right; reflexivity|discriminate].
  - destruct (answer_outcome E i url (store w)) as [[body ->]| ->];
      (split; [auto|discriminate]).
  - destruct (answer_outcome E i url
                (store w ++ [mkObject (generate_uuid5 L i) i])) as [[body ->]| ->];
      (split; [auto|discriminate]).
Qed.

(** X9. The two errors of the handler name their cause.  It ends with a
    [TypeError] exactly when the fetch failed, and with the
    [HTTPException] of detail "Failed to extract information." exactly
    when the fetch succeeded and the extraction failed. *)
Theorem errors_name_their_cause L E url w :
  (fst (process_vc_url L E url w) = Raised TypeError <->
   fst (scrape_texts_and_links L E url w) = Returned None) /\
  (fst (process_vc_url L E url w)
   = Raised (HTTPException 500 "Failed to extract information.") <->
   exists texts links,
     fst (scrape_texts_and_links L E url w) = Returned (Some (texts, links)) /\
     ExtractionFails L E (texts ++ links)).
Proof.
  rewrite scrape_returns.
  assert (A : forall i objects, answer E i url objects <> Raised TypeError /\
                answer E i url objects
                <> Raised (HTTPException 500 "Failed to extract information.")).
  { intros i objects.
    destruct (answer_outcome E i url objects) as [[body ->]| ->]; split; discriminate. }
  destruct (process_vc_url_paths L E url w) as (r & s' & evs & Hrun & Hpath).
  rewrite Hrun. cbn [fst].
  split; split.
  - intros Hr. run_paths Hpath; try discriminate; try assumption.
    + apply names_of_error in Hn. congruence.
    + now apply A in Hr.
    + now apply A in Hr.
  - intros Hf. run_paths Hpath; try reflexivity; congruence.
  - intros Hr. run_paths Hpath; try discriminate.
    + exists t, l. split; [now apply scrape_returns|]. apply extraction_fails. eauto.
    + apply names_of_error in Hn. congruence.
    + now apply A in Hr.
    + now apply A in Hr.
  - intros (texts & links & Hs & Hfail). apply scrape_returns in Hs.
    apply extraction_fails in Hfail as [e0 He].
    run_paths Hpath; try reflexivity; rewrite Hs in H; try discriminate;
      injection H as <- <-; congruence.
Qed.


(** X11. The converse of the existence check: when every object of the
    index carries a name and none carries the extracted one, the handler
    asks the index to insert the extracted record, all four fields of it,
    under the identifier computed from it; where that identifier is not
    in use the index then holds the record as its last object. *)
Theorem unknown_name_is_inserted L E url w info name :
  extracts L E url info ->
  dict_get "vc_name" info = Some name ->
  Forall named (store w) ->
  ~ stored_name name (store w) ->
  let uuid := generate_uuid5 L info in
  (exists text rest,
     events_of (process_vc_url L E url) w
     = RequestsGet url :: ChatCompletionsCreate text
       :: CollectionsGet "VentureCapital" :: QueryFetchObjects ["vc_name"]
       :: DataInsert info uuid :: rest) /\
  (existsb (fun o => String.eqb (obj_uuid o) uuid) (store w) = false ->
   store (snd (process_vc_url L E url w)) = (store w ++ [mkObject uuid info])%list).
Proof.
  intros Hex Hname Hnamed Hnew uuid. subst uuid.
  apply extracts_iff in Hex as (texts & links & Hf & Hxi).
  destruct (names_of_named _ Hnamed) as [names Hnames].
  assert (Hnot : py_in name names = false).
  { destruct (py_in name names) eqn:Hin; [|reflexivity].
    apply (py_in_stored _ _ _ Hnames) in Hin. contradiction. }
  destruct (process_vc_url_paths L E url w) as (r & s' & evs & Hrun & Hpath).
  rewrite (events_of_eq _ _ _ _ _ Hrun), Hrun. cbn [snd store].
  run_paths Hpath; rewrite Hf in H; try discriminate; injection H as <- <-;
    rewrite Hxi in Hx; try discriminate; injection Hx as <-;
    try congruence;
    rewrite Hname in Hd; injection Hd as <-;
    rewrite Hnames in Hn; injection Hn as <-; try congruence.
  - split; [eauto|]. congruence.
  - split; [eauto|]. reflexivity.
Qed.

Lemma unknown_name_is_inserted_witness :
  store (snd (process_vc_url (Sample.library Sample.soup)
                (Sample.services 200 Sample.blank_answer) Sample.url Sample.stocked))
  = (store Sample.stocked
     ++ [mkObject
           (generate_uuid5 (Sample.library Sample.soup)
              [ ("vc_name", PyStr "no info"); ("contacts", PyList [PyStr "no info"]);
                ("industries", PyList [PyStr "no info"]);
                ("investment_rounds", PyList [PyStr "no info"]) ])
           [ ("vc_name", PyStr "no info"); ("contacts", PyList [PyStr "no info"]);
             ("industries", PyList [PyStr "no info"]);
             ("investment_rounds", PyList [PyStr "no info"]) ]])%list.
Proof.
  apply (unknown_name_is_inserted (Sample.library Sample.soup)
           (Sample.services 200 Sample.blank_answer) Sample.url Sample.stocked
           [ ("vc_name", PyStr "no info"); ("contacts", PyList [PyStr "no info"]);
             ("industries", PyList [PyStr "no info"]);
             ("investment_rounds", PyList [PyStr "no info"]) ]
           (PyStr "no info")).
  - apply extracts_iff.
    exists (get_text Sample.soup), "https://example-vc.com/contact (Contact Us)".
    split; reflexivity.
  - reflexivity.
  - repeat constructor. discriminate.
  - intros (o & n & [<-|[]] & Hn & Heq). injection Hn as <-. discriminate.
  - reflexivity.
Defined.

(** X12. The identifier of an inserted record is computed from the very
    text that is then sent to the index as the nearest-neighbour query:
    the record printed as a dict. *)
Theorem identifier_hashes_query_text L E url w properties uuid query limit distance :
  In (DataInsert properties uuid) (events_of (process_vc_url L E url) w) ->
  In (QueryNearText query limit distance) (events_of (process_vc_url L E url) w) ->
  query = py_str (PyDict properties) /\ uuid = uuid5_dns L query.
Proof.
  intros Hi Hq.
  destruct (process_vc_url_paths L E url w) as (r & s' & evs & Hrun & Hpath).
  rewrite (events_of_eq _ _ _ _ _ Hrun) in Hi, Hq.
  run_paths Hpath; simpl in Hi, Hq;
    repeat match goal with
    | H' : _ \/ _ |- _ => destruct H'
    | H' : False |- _ => destruct H'
    | H' : _ = DataInsert _ _ |- _ => try discriminate H'; injection H' as <- <-
    | H' : _ = QueryNearText _ _ _ |- _ => try discriminate H'; injection H' as <- <- <-
    end.
  split; reflexivity.
Qed.

Lemma identifier_hashes_query_text_witness :
  let lib := Sample.library Sample.soup in
  let svc := Sample.services 200 Sample.answer in
  let query := py_str (PyDict Sample.record) in
  query = py_str (PyDict Sample.record) /\ generate_uuid5 lib Sample.record = uuid5_dns lib query.
Proof.
  intros lib svc query.
  apply (identifier_hashes_query_text lib svc Sample.url Sample.empty Sample.record
           (generate_uuid5 lib Sample.record) query 3 true).
  - vm_compute. tauto.
  - vm_compute. tauto.
Defined.

Lemma resubmission_keeps_store_witness :
  let lib := Sample.library Sample.soup in
  let svc := Sample.services 200 Sample.answer in
  let w1 := snd (process_vc_url lib svc Sample.url Sample.empty) in
  store w1 = [mkObject (generate_uuid5 lib Sample.record) Sample.record] /\
  store (snd (process_vc_url lib svc Sample.url w1)) = store w1.
Proof.
  intros lib svc w1. split; [reflexivity|].
  apply (resubmission_keeps_store lib svc svc Sample.url Sample.url Sample.empty
           Sample.record Sample.record (PyStr "Acme Ventures")
           [ "Message: " ++ format_information Sample.record Sample.url ++ " " ++ LF
             ++ " Similar companies: " ++ py_repr (PyList [PyStr "Acme Ventures"]) ]).
  - reflexivity.
  - exact sample_extracts.
  - reflexivity.
  - reflexivity.
  - exact sample_extracts.
  - reflexivity.
Defined.

Lemma names_of_firstn n objects :
  Forall named objects -> exists names, names_of (firstn n objects) = inr names.
Proof.
  intros H. apply names_of_named. revert n.
  induction H as [|o objects Ho _ IH]; intros [|n]; cbn [firstn]; auto.
Qed.

(** X14. The handler does answer, with one message that holds the
    summary and the similar names, whenever a record was extracted, every
    object of the index carries a name and so does every object the
    index ranks, and the name is known or the identifier of the record
    is not in use. *)
Theorem request_is_answered L E url w info name :
  extracts L E url info ->
  dict_get "vc_name" info = Some name ->
  Forall named (store w) ->
  (forall objects, Forall named objects ->
                   Forall named (near_text_order E (py_str (PyDict info)) objects)) ->
  stored_name name (store w) \/
  existsb (fun o => String.eqb (obj_uuid o) (generate_uuid5 L info)) (store w) = false ->
  exists similar,
    fst (process_vc_url L E url w)
    = Returned [ "Message: " ++ format_information info url ++ " " ++ LF
                 ++ " Similar companies: " ++ py_repr (PyList similar) ] /\
    response_status (fst (process_vc_url L E url w)) = 200%Z.
Proof.
  intros Hex Hname Hnamed Hrank Hok.
  apply extracts_iff in Hex as (texts & links & Hf & Hxi).
  destruct (names_of_named _ Hnamed) as [names Hnames].
  assert (Hans : forall objects, Forall named objects ->
            exists similar,
              answer E info url objects
              = Returned [ "Message: " ++ format_information info url ++ " " ++ LF
                           ++ " Similar companies: " ++ py_repr (PyList similar) ]).
  { intros objects Hobj. unfold answer.
    destruct (names_of_firstn 3 _ (Hrank objects Hobj)) as [similar ->].
    exists similar. reflexivity. }
  destruct (process_vc_url_paths L E url w) as (r & s' & evs & Hrun & Hpath).
  rewrite Hrun. cbn [fst].
  run_paths Hpath; rewrite Hf in H; try discriminate; injection H as <- <-;
    rewrite Hxi in Hx; try discriminate; injection Hx as <-;
    try congruence;
    rewrite Hname in Hd; injection Hd as <-.
  - destruct (Hans (store w) Hnamed) as [similar ->]. eauto.
  - destruct Hok as [Hst|Hfresh]; [|congruence].
    apply (py_in_stored _ _ _ Hn) in Hst. congruence.
  - assert (Hnew : Forall named (store w ++ [mkObject (generate_uuid5 L info) info])).
    { apply Forall_app. split; [exact Hnamed|]. repeat constructor.
      unfold named. cbn [obj_properties]. congruence. }
    destruct (Hans _ Hnew) as [similar ->]. eauto.
Qed.

Lemma request_is_answered_witness :
  exists similar,
    fst (process_vc_url (Sample.library Sample.soup)
           (Sample.services 200 Sample.answer) Sample.url Sample.stocked)
    = Returned [ "Message: " ++ format_information Sample.record Sample.url ++ " " ++ LF
                 ++ " Similar companies: " ++ py_repr (PyList similar) ].
Proof.
  destruct (request_is_answered (Sample.library Sample.soup)
              (Sample.services 200 Sample.answer) Sample.url Sample.stocked
              Sample.record (PyStr "Acme Ventures"))
    as (similar & Hr & _).
  - exact sample_extracts.
  - reflexivity.
  - repeat constructor. discriminate.
  - intros objects H. exact H.
  - left. eexists _, _. split; [left; reflexivity|]. split; reflexivity.
  - exists similar. exact Hr.
Defined.
